(** * warehouse/sessions.py: server-side sessions

    A shallow embedding of [Session] and [SessionFactory] from
    [warehouse/sessions.py], and the properties of the session lifecycle:
    dirty tracking, invalidation, loading a session from a signed cookie,
    persisting it on the response, flash queues and CSRF tokens.

    Conventions.
    - A Python [str] is a [string] holding its UTF-8 encoding, so
      [str.encode("utf8")] only changes the type and [bytes.decode("utf8")]
      checks well-formedness.
    - A [dict] with string keys is a [gmap string value].
    - A method that mutates [self], reads the clock, draws random bytes or
      talks to Redis is a computation in the monad [M]: it takes the state,
      and returns either a value or a raised exception together with the
      state it leaves behind.
    - The signer ([warehouse.utils.crypto.TimestampSigner]), the random token
      generator ([warehouse.utils.crypto.random_token]), msgpack, hmac,
      [dict()] on a sequence and [add_vary] are collaborators that this
      module only calls: they are interfaces (type classes) here, each
      with the exceptions it can raise, and a theorem states which of their
      laws it needs.
    - [InvalidSession], the tween and [uses_session] guard the access to
      [request.session]; they are embedded after the session and its
      factory, over a state that adds the two attributes of the request
      they juggle. *)

From Stdlib Require Import ZArith NArith Ascii Lia.
From stdpp Require Import gmap strings list fin_maps pretty.

Set Warnings "-register-all".

Open Scope Z_scope.

(** ** Values stored in a session *)

(** The JSON-like values a session carries (floats are left out: nothing
    below computes with them). *)
Inductive value : Type :=
  | VNone
  | VBool (b : bool)
  | VInt (z : Z)
  | VStr (s : string)
  | VList (l : list value)
  | VDict (d : gmap string value).

#[global] Instance value_eq_dec : EqDecision value.
Proof.
  refine (fix go (a b : value) {struct a} : Decision (a = b) :=
    let _ : EqDecision value := @go in
    match a, b with
    | VNone, VNone => left _
    | VBool x, VBool y => cast_if (decide (x = y))
    | VInt x, VInt y => cast_if (decide (x = y))
    | VStr x, VStr y => cast_if (decide (x = y))
    | VList x, VList y => cast_if (decide (x = y))
    | VDict x, VDict y => cast_if (decide (x = y))
    | _, _ => right _
    end); abstract congruence.
Defined.

#[global] Instance value_inhabited : Inhabited value := populate VNone.

(** Python's [==] identifies [True] with [1] and [False] with [0], also
    inside containers. *)
Fixpoint as_number (v : value) : value :=
  match v with
  | VBool b => VInt (Z.b2z b)
  | VList l => VList (as_number <$> l)
  | VDict d => VDict (as_number <$> d)
  | _ => v
  end.

Definition py_eq (a b : value) : bool := bool_decide (as_number a = as_number b).

Fixpoint is_substring (needle hay : string) : bool :=
  String.prefix needle hay ||
  match hay with
  | EmptyString => false
  | String _ rest => is_substring needle rest
  end.

(** ** Exceptions and the state monad *)

Inductive exn : Type :=
  | KeyError
  | TypeError
  | ValueError
  | AttributeError
  | UnicodeDecodeError
  | UnpackException      (* msgpack.exceptions.UnpackException and its subclasses *)
  | ExtraData            (* msgpack.exceptions.ExtraData *)
  | PackValueError.      (* msgpack.exceptions.PackValueError *)

Inductive outcome (A : Type) : Type :=
  | Ret (a : A)
  | Raise (e : exn).
Arguments Ret {A} a.
Arguments Raise {A} e.

(** ** Bytes and UTF-8 *)

Definition bytes : Type := list Byte.byte.

Definition encode_utf8 (s : string) : bytes := String.list_byte_of_string s.

Definition between (lo hi : N) (b : Byte.byte) : bool :=
  (lo <=? Byte.to_N b)%N && (Byte.to_N b <=? hi)%N.

(** Well-formed UTF-8 byte sequences (no overlong forms, no surrogates,
    nothing above U+10FFFF), as the strict decoder accepts them. *)
Fixpoint utf8_well_formed (bs : bytes) : bool :=
  match bs with
  | [] => true
  | b0 :: r0 =>
    if between 0x00 0x7F b0 then utf8_well_formed r0 else
    match r0 with
    | [] => false
    | b1 :: r1 =>
      if between 0xC2 0xDF b0 then between 0x80 0xBF b1 && utf8_well_formed r1 else
      match r1 with
      | [] => false
      | b2 :: r2 =>
        if between 0xE0 0xE0 b0 then
          between 0xA0 0xBF b1 && between 0x80 0xBF b2 && utf8_well_formed r2
        else if between 0xE1 0xEC b0 || between 0xEE 0xEF b0 then
          between 0x80 0xBF b1 && between 0x80 0xBF b2 && utf8_well_formed r2
        else if between 0xED 0xED b0 then
          between 0x80 0x9F b1 && between 0x80 0xBF b2 && utf8_well_formed r2
        else
        match r2 with
        | [] => false
        | b3 :: r3 =>
          let tail := between 0x80 0xBF b2 && between 0x80 0xBF b3 in
          if between 0xF0 0xF0 b0 then
            between 0x90 0xBF b1 && tail && utf8_well_formed r3
          else if between 0xF1 0xF3 b0 then
            between 0x80 0xBF b1 && tail && utf8_well_formed r3
          else if between 0xF4 0xF4 b0 then
            between 0x80 0x8F b1 && tail && utf8_well_formed r3
          else false
        end
      end
    end
  end.

(** [bytes.decode("utf8")]: [None] stands for [UnicodeDecodeError]. *)
Definition decode_utf8 (bs : bytes) : option string :=
  if utf8_well_formed bs then Some (String.string_of_list_byte bs) else None.

(** ** Collaborators *)

(** [crypto.TimestampSigner]. The signer reads the clock itself, so both
    operations take its reading: [sign payload now] wraps a payload into a
    token that carries the signing time; [unsign token max_age now] gives
    the payload back or raises: [BadSignature] when the signature does not
    verify, [SignatureExpired], a subclass of [BadSignature], when the
    token is older than [max_age] seconds. *)
Inductive unsigned : Type :=
  | Unsigned (payload : bytes)
  | BadSignature
  | SignatureExpired.

Class Signer : Type := {
  sign : bytes → Z → string;
  unsign : string → Z → Z → unsigned
}.

(** msgpack. [packb] encodes the mapping a session holds, or raises when a
    value in it has no encoding. [unpackb] returns the object a blob
    encodes, which need not be a mapping, or raises: [UnpackException] and
    [ExtraData] for a blob that is not well-formed, and whatever else the
    decoding runs into, such as [UnicodeDecodeError] for a string that is
    not UTF-8. *)
Class Serializer : Type := {
  packb : gmap string value → outcome bytes;
  unpackb : bytes → outcome value
}.

(** [dict(sequence)], the part of the builtin that does not show in the
    values modelled here: what it makes of a list depends on the length
    and the hashing of each element. *)
Class Builtins : Type := {
  dict_of_sequence : list value → outcome (gmap string value)
}.

(** [crypto.random_token()]: the [n]-th token the generator hands out. *)
Class Entropy : Type := {
  random_token : nat → string
}.

(** [hmac.new(key, msg, digestmod).hexdigest()]. *)
Class Hmac : Type := {
  hmac_hexdigest : bytes → bytes → string → string
}.

(** ** The session object and its surroundings *)

Record Session : Type := mkSession {
  data : gmap string value;      (* the dict the class inherits from *)
  _sid : option string;
  _changed : bool;
  new : bool;
  created : Z;
  invalidated : bool
}.

(** What [set_cookie] and [delete_cookie] leave on a response. *)
Inductive cookie_directive : Type :=
  | SetCookie (name val : string) (max_age : Z) (httponly secure : bool)
  | DeleteCookie (name : string).

(** The callables [add_response_callback] can be given here: the bound
    method [SessionFactory._process_response]. *)
Inductive callback : Type :=
  | process_response_callback.

Record Request : Type := mkRequest {
  cookies : gmap string string;
  scheme : string;
  response_callbacks : list callback
}.

Definition add_response_callback (cb : callback) (request : Request) : Request :=
  mkRequest (cookies request) (scheme request) (response_callbacks request ++ [cb]).

(** The state a request is handled in: [request.session], the Redis
    keyspace (a blob and the expiry it was stored with), the cookie
    directives of the response, how many random tokens have been drawn, and
    the value of [int(time.time())]. *)
Record state : Type := mkState {
  session : Session;
  redis : gmap string (bytes * Z);
  response : list cookie_directive;
  entropy : nat;
  clock : Z
}.

Definition M (A : Type) : Type := state → outcome A * state.

Definition ret {A} (a : A) : M A := fun st => (Ret a, st).

Definition raise {A} (e : exn) : M A := fun st => (Raise e, st).

Definition bind {A B} (c : M A) (k : A → M B) : M B :=
  fun st =>
    match c st with
    | (Ret a, st') => k a st'
    | (Raise e, st') => (Raise e, st')
    end.

Declare Scope py_scope.
Delimit Scope py_scope with py.
Notation "x <- c ;; k" := (bind c (fun x => k))
  (at level 100, c at next level, right associativity) : py_scope.
Notation "c ;; k" := (bind c (fun _ => k))
  (at level 100, right associativity) : py_scope.
Open Scope py_scope.

Definition get_self : M Session := fun st => (Ret (session st), st).

Definition modify_self (f : Session → Session) : M unit :=
  fun st =>
    (Ret tt, mkState (f (session st)) (redis st) (response st) (entropy st) (clock st)).

Definition with_data (f : gmap string value → gmap string value) (s : Session) : Session :=
  mkSession (f (data s)) (_sid s) (_changed s) (new s) (created s) (invalidated s).

Definition with_sid (x : option string) (s : Session) : Session :=
  mkSession (data s) x (_changed s) (new s) (created s) (invalidated s).

Definition with_changed (b : bool) (s : Session) : Session :=
  mkSession (data s) (_sid s) b (new s) (created s) (invalidated s).

Definition with_new (b : bool) (s : Session) : Session :=
  mkSession (data s) (_sid s) (_changed s) b (created s) (invalidated s).

Definition with_created (t : Z) (s : Session) : Session :=
  mkSession (data s) (_sid s) (_changed s) (new s) t (invalidated s).

Definition with_invalidated (b : bool) (s : Session) : Session :=
  mkSession (data s) (_sid s) (_changed s) (new s) (created s) b.

Definition time_time : M Z := fun st => (Ret (clock st), st).

(** ** The inherited dict methods, acting on [self] *)

Definition dict_getitem (k : string) : M value :=
  s <- get_self ;;
  match data s !! k with
  | Some v => ret v
  | None => raise KeyError
  end.

Definition dict_get (k : string) (dflt : value) : M value :=
  s <- get_self ;;
  ret (default dflt (data s !! k)).

Definition dict_setitem (k : string) (v : value) : M unit :=
  modify_self (with_data (insert k v)).

Definition dict_delitem (k : string) : M unit :=
  s <- get_self ;;
  match data s !! k with
  | Some _ => modify_self (with_data (delete k))
  | None => raise KeyError
  end.

Definition dict_clear : M unit :=
  modify_self (with_data (fun _ => ∅)).

(** [dict.pop(key[, default])]: without a default a missing key raises. *)
Definition dict_pop (k : string) (dflt : option value) : M value :=
  s <- get_self ;;
  match data s !! k, dflt with
  | Some v, _ => modify_self (with_data (delete k)) ;; ret v
  | None, Some d => ret d
  | None, None => raise KeyError
  end.

(** [dict.popitem()]: removes one entry, which one being the hash table's
    business; an empty dict raises. *)
Definition dict_popitem : M (string * value) :=
  s <- get_self ;;
  match map_to_list (data s) with
  | (k, v) :: _ => modify_self (with_data (delete k)) ;; ret (k, v)
  | [] => raise KeyError
  end.

Definition dict_setdefault (k : string) (dflt : value) : M value :=
  s <- get_self ;;
  match data s !! k with
  | Some v => ret v
  | None => modify_self (with_data (insert k dflt)) ;; ret dflt
  end.

Definition dict_update (other : gmap string value) : M unit :=
  modify_self (with_data (fun d => other ∪ d)).

Definition dict_contains (k : string) : M bool :=
  s <- get_self ;;
  ret (bool_decide (is_Some (data s !! k))).

(** ** class Session *)

Definition _csrf_token_key : string := "_csrf_token".
Definition _flash_key : string := "_flash_messages".

Definition changed : M unit := modify_self (with_changed true).

(** The decorator: mark the session as changed, then run the method. *)
Definition _changed_method {A} (method : M A) : M A :=
  changed ;; method.

Definition __delitem__ (k : string) : M unit := _changed_method (dict_delitem k).
Definition __setitem__ (k : string) (v : value) : M unit := _changed_method (dict_setitem k v).
Definition clear : M unit := _changed_method dict_clear.
Definition pop (k : string) (dflt : option value) : M value := _changed_method (dict_pop k dflt).
Definition popitem : M (string * value) := _changed_method dict_popitem.
Definition setdefault (k : string) (dflt : value) : M value := _changed_method (dict_setdefault k dflt).
Definition update (other : gmap string value) : M unit := _changed_method (dict_update other).

(** [Session(data, session_id, new)], built when the clock reads [now]. The
    parameters default to [None], [None] and [True]. *)
Definition __init__ (d : option (gmap string value)) (session_id : option string)
    (is_new : bool) (now : Z) : Session :=
  {| data := default ∅ d;
     _sid := session_id;
     _changed := false;
     new := is_new;
     created := now;
     invalidated := false |}.

Definition invalidate : M unit :=
  clear ;;
  modify_self (with_new true) ;;
  now <- time_time ;;
  modify_self (with_created now) ;;
  modify_self (with_invalidated true) ;;
  modify_self (with_changed false).

Definition should_save : M bool :=
  s <- get_self ;; ret (_changed s).

(** *** Flash messages *)

Definition _get_flash_queue_key (queue : string) : string :=
  String.concat "." (List.filter (fun s => negb (String.eqb s "")) [_flash_key; queue]).

(** [msg in container]. *)
Definition py_in (msg container : value) : M bool :=
  match container with
  | VList l => ret (existsb (py_eq msg) l)
  | VStr hay =>
    match msg with
    | VStr needle => ret (is_substring needle hay)
    | _ => raise TypeError
    end
  | VDict d =>
    match msg with
    | VStr k => ret (bool_decide (is_Some (d !! k)))
    | VList _ | VDict _ => raise TypeError
    | _ => ret false
    end
  | _ => raise TypeError
  end.

(** [self.setdefault(queue_key, []).append(msg)]: the list that
    [setdefault] returns is the one stored under [queue_key], so the append
    shows in the session; it goes through no decorated method. *)
Definition append_in_place (queue_key : string) (q msg : value) : M unit :=
  match q with
  | VList l => modify_self (with_data (insert queue_key (VList (l ++ [msg]))))
  | _ => raise AttributeError
  end.

Definition flash (msg : value) (queue : string) (allow_duplicate : bool) : M unit :=
  let queue_key := _get_flash_queue_key queue in
  present <-
    (if negb allow_duplicate
     then (q <- dict_getitem queue_key ;; py_in msg q)
     else ret false) ;;
  if (present : bool) then ret tt
  else (q <- setdefault queue_key (VList []) ;; append_in_place queue_key q msg).

Definition peek_flash (queue : string) : M value :=
  dict_get (_get_flash_queue_key queue) (VList []).

Definition pop_flash (queue : string) : M value :=
  let queue_key := _get_flash_queue_key queue in
  messages <- dict_get queue_key (VList []) ;;
  pop queue_key (Some VNone) ;;
  ret messages.

Section Collaborators.

Context `{!Signer, !Serializer, !Builtins, !Entropy, !Hmac}.

Definition crypto_random_token : M string :=
  fun st =>
    (Ret (random_token (entropy st)),
     mkState (session st) (redis st) (response st) (S (entropy st)) (clock st)).

(** The [sid] property: generated on first read, then kept. *)
Definition sid : M string :=
  s <- get_self ;;
  match _sid s with
  | Some x => ret x
  | None =>
    t <- crypto_random_token ;;
    modify_self (with_sid (Some t)) ;;
    ret t
  end.

Definition del_sid : M unit := modify_self (with_sid None).

(** *** CSRF *)

Definition new_csrf_token : M value :=
  t <- crypto_random_token ;;
  __setitem__ _csrf_token_key (VStr t) ;;
  dict_getitem _csrf_token_key.

Definition get_csrf_token : M value :=
  token <- dict_get _csrf_token_key VNone ;;
  match token with
  | VNone => new_csrf_token
  | _ => ret token
  end.

(** [x.encode("utf8")] on a session value: only a [str] has the method. *)
Definition value_encode (v : value) : M bytes :=
  match v with
  | VStr s => ret (encode_utf8 s)
  | _ => raise AttributeError
  end.

Definition get_scoped_csrf_token (scope : string) : M string :=
  token <- get_csrf_token ;;
  unscoped <- value_encode token ;;
  let scope := encode_utf8 scope in
  let scoped := encode_utf8 (hmac_hexdigest unscoped scope "sha512") in
  session_id <- sid ;;
  ret (hmac_hexdigest scoped (encode_utf8 session_id) "sha512").

Definition has_csrf_token : M bool := dict_contains _csrf_token_key.

(** ** class SessionFactory *)

Definition cookie_name : string := "session_id".
Definition max_age : Z := 12 * 60 * 60.

Definition _redis_key (session_id : string) : string :=
  "warehouse/session/data/" +:+ session_id.

(** What [Session.__init__] makes of its first argument when that is an
    object msgpack has returned: [None] stays [None], and anything else
    goes to [dict(data)], which copies a mapping, finds nothing in an empty
    string, cannot split the characters of another string in two, and
    cannot iterate over a number. *)
Definition dict_of (obj : value) : outcome (option (gmap string value)) :=
  match obj with
  | VNone => Ret None
  | VDict d => Ret (Some d)
  | VStr EmptyString => Ret (Some ∅)
  | VStr _ => Raise ValueError
  | VBool _ | VInt _ => Raise TypeError
  | VList l =>
    match dict_of_sequence l with
    | Ret d => Ret (Some d)
    | Raise e => Raise e
    end
  end.

(** The body of [_process_request] after the callback is registered, given
    the request, the Redis keyspace and the clock. *)
Definition load_session (request : Request) (store : gmap string (bytes * Z))
    (now : Z) : outcome Session :=
  match cookies request !! cookie_name with
  | None => Ret (__init__ None None true now)
  | Some token =>
    match unsign token max_age now with
    | BadSignature | SignatureExpired => Ret (__init__ None None true now)
    | Unsigned payload =>
      match decode_utf8 payload with
      | None => Raise UnicodeDecodeError
      | Some session_id =>
        match fst <$> store !! _redis_key session_id with
        | None => Ret (__init__ None None true now)
        | Some bdata =>
          match unpackb bdata with
          | Raise UnpackException | Raise ExtraData =>
            Ret (__init__ None None true now)
          | Raise e => Raise e
          | Ret obj =>
            match dict_of obj with
            | Ret d => Ret (__init__ d (Some session_id) true now)
            | Raise e => Raise e
            end
          end
        end
      end
    end
  end.

(** [_process_request]: the outcome, and the request with
    [_process_response] registered to run once the view has returned. *)
Definition _process_request (request : Request) (store : gmap string (bytes * Z))
    (now : Z) : outcome Session * Request :=
  let request := add_response_callback process_response_callback request in
  (load_session request store now, request).

Definition redis_delete (key : string) : M unit :=
  fun st =>
    (Ret tt, mkState (session st) (delete key (redis st)) (response st) (entropy st) (clock st)).

Definition redis_setex (key : string) (ttl : Z) (blob : bytes) : M unit :=
  fun st =>
    (Ret tt,
     mkState (session st) (<[key := (blob, ttl)]> (redis st)) (response st) (entropy st) (clock st)).

Definition emit (d : cookie_directive) : M unit :=
  fun st =>
    (Ret tt, mkState (session st) (redis st) (response st ++ [d]) (entropy st) (clock st)).

Definition delete_cookie (name : string) : M unit := emit (DeleteCookie name).

Definition set_cookie (name val : string) (age : Z) (httponly secure : bool) : M unit :=
  emit (SetCookie name val age httponly secure).

Definition signer_sign (payload : bytes) : M string :=
  now <- time_time ;; ret (sign payload now).

(** [msgpack.packb(request.session, ...)]. *)
Definition msgpack_packb (d : gmap string value) : M bytes :=
  fun st => (packb d, st).

Definition when (b : bool) (c : M unit) : M unit := if b then c else ret tt.

Definition _process_response (request : Request) : M unit :=
  s <- get_self ;;
  when (invalidated s)
    (old <- sid ;;
     redis_delete (_redis_key old) ;;
     del_sid ;;
     dirty <- should_save ;;
     when (negb dirty) (delete_cookie cookie_name)) ;;
  dirty <- should_save ;;
  when dirty
    (key <- sid ;;
     s <- get_self ;;
     blob <- msgpack_packb (data s) ;;
     redis_setex (_redis_key key) max_age blob ;;
     session_id <- sid ;;
     token <- signer_sign (encode_utf8 session_id) ;;
     set_cookie cookie_name token max_age true
       (String.eqb (scheme request) "https")).

End Collaborators.

(** ** Reference collaborators

    Small executable instances of the interfaces, on which the theorems
    below are run: a signer that stamps a payload with the time, an
    encoder and a decoder for part of msgpack, a [dict()] for lists of
    pairs, a token generator that counts, and a keyed digest that only
    frames its arguments. *)
Module Reference.

Definition tag : string := "v1.".

(** A token is the tag, the payload, a dot and the signing time in
    decimal. *)
Definition stamped_sign (payload : bytes) (now : Z) : string :=
  tag +:+ String.string_of_list_byte payload +:+ "." +:+ pretty now.

(** Splits a reversed token body at its first dot. *)
Fixpoint break_dot (cs : list ascii) : option (list ascii * list ascii) :=
  match cs with
  | [] => None
  | c :: rest =>
    if Ascii.eqb c "."
    then Some ([], rest)
    else '(stamp, payload) ← break_dot rest; Some (c :: stamp, payload)
  end.

Definition digit (c : ascii) : option Z :=
  let n := Z.of_N (Ascii.N_of_ascii c) - 48 in
  if decide (0 ≤ n ≤ 9) then Some n else None.

Fixpoint parse_decimal (acc : Z) (cs : list ascii) : option Z :=
  match cs with
  | [] => Some acc
  | c :: rest => d ← digit c; parse_decimal (10 * acc + d) rest
  end.

Definition stamped_unsign (token : string) (age now : Z) : unsigned :=
  if String.prefix tag token then
    let body := String.substring 3 (String.length token - 3) token in
    match break_dot (reverse (String.list_ascii_of_string body)) with
    | Some (c :: stamp, payload) =>
      match parse_decimal 0 (reverse (c :: stamp)) with
      | Some signed_at =>
        if decide (now - signed_at ≤ age)
        then Unsigned (String.list_byte_of_string
                         (String.string_of_list_ascii (reverse payload)))
        else SignatureExpired
      | None => BadSignature
      end
    | _ => BadSignature
    end
  else BadSignature.

Definition byte_of (n : N) : Byte.byte := default Byte.x00 (Byte.of_N n).

Definition and_then {A B} (o : outcome A) (k : A → outcome B) : outcome B :=
  match o with
  | Ret a => k a
  | Raise e => Raise e
  end.

(** The encoder covers maps of fewer than 16 entries whose values are
    integers from 0 to 127 or strings shorter than 32 bytes, and encodes
    them as msgpack does; on anything else it raises. *)
Definition pack_str (s : string) : outcome bytes :=
  if decide (String.length s < 32)%nat
  then Ret (byte_of (0xa0 + N.of_nat (String.length s)) :: String.list_byte_of_string s)
  else Raise PackValueError.

Definition pack_value (v : value) : outcome bytes :=
  match v with
  | VInt z => if decide (0 ≤ z < 128) then Ret [byte_of (Z.to_N z)] else Raise PackValueError
  | VStr s => pack_str s
  | _ => Raise TypeError
  end.

Definition pack_entry (kv : string * value) : outcome bytes :=
  and_then (pack_str kv.1) (fun k =>
  and_then (pack_value kv.2) (fun v => Ret (k ++ v))).

Fixpoint pack_entries (entries : list (string * value)) : outcome bytes :=
  match entries with
  | [] => Ret []
  | kv :: rest =>
    and_then (pack_entry kv) (fun chunk =>
    and_then (pack_entries rest) (fun chunks => Ret (chunk ++ chunks)))
  end.

Definition mini_packb (d : gmap string value) : outcome bytes :=
  if decide (size d < 16)%nat
  then and_then (pack_entries (map_to_list d)) (fun chunks =>
       Ret (byte_of (0x80 + N.of_nat (size d)) :: chunks))
  else Raise PackValueError.

(** The decoder covers nil, the booleans, the integers from 0 to 127,
    fixstr, and fixarray and fixmap of those, with strings decoded as
    UTF-8. A blob that stops short is [OutOfData], one of the subclasses of
    [UnpackException], as is here every form that is not covered; bytes
    left over are [ExtraData]. *)
Definition take_str (bs : bytes) : outcome (string * bytes) :=
  match bs with
  | h :: r =>
    if between 0xa0 0xbf h then
      let len := N.to_nat (Byte.to_N h - 0xa0) in
      if decide (len ≤ length r)%nat
      then match decode_utf8 (take len r) with
           | Some s => Ret (s, drop len r)
           | None => Raise UnicodeDecodeError
           end
      else Raise UnpackException
    else Raise UnpackException
  | [] => Raise UnpackException
  end.

Definition take_scalar (bs : bytes) : outcome (value * bytes) :=
  match bs with
  | h :: r =>
    if between 0x00 0x7f h then Ret (VInt (Z.of_N (Byte.to_N h)), r)
    else if between 0xc0 0xc0 h then Ret (VNone, r)
    else if between 0xc2 0xc2 h then Ret (VBool false, r)
    else if between 0xc3 0xc3 h then Ret (VBool true, r)
    else and_then (take_str bs) (fun '(s, r') => Ret (VStr s, r'))
  | [] => Raise UnpackException
  end.

Fixpoint take_entries (n : nat) (bs : bytes) : outcome (list (string * value) * bytes) :=
  match n with
  | O => Ret ([], bs)
  | S n' =>
    and_then (take_str bs) (fun '(k, r1) =>
    and_then (take_scalar r1) (fun '(v, r2) =>
    and_then (take_entries n' r2) (fun '(rest, r3) =>
    Ret ((k, v) :: rest, r3))))
  end.

Fixpoint take_items (n : nat) (bs : bytes) : outcome (list value * bytes) :=
  match n with
  | O => Ret ([], bs)
  | S n' =>
    and_then (take_scalar bs) (fun '(v, r1) =>
    and_then (take_items n' r1) (fun '(rest, r2) =>
    Ret (v :: rest, r2)))
  end.

Definition take_object (bs : bytes) : outcome (value * bytes) :=
  match bs with
  | h :: r =>
    if between 0x80 0x8f h then
      and_then (take_entries (N.to_nat (Byte.to_N h - 0x80)) r) (fun '(entries, r') =>
      Ret (VDict (list_to_map (reverse entries)), r'))
    else if between 0x90 0x9f h then
      and_then (take_items (N.to_nat (Byte.to_N h - 0x90)) r) (fun '(items, r') =>
      Ret (VList items, r'))
    else take_scalar bs
  | [] => Raise UnpackException
  end.

Definition mini_unpackb (bs : bytes) : outcome value :=
  and_then (take_object bs) (fun '(obj, rest) =>
  match rest with
  | [] => Ret obj
  | _ :: _ => Raise ExtraData
  end).

(** [dict()] on a list of two-element lists with string keys, a later pair
    replacing an earlier one; on anything else it raises. *)
Fixpoint pairs_to_dict (acc : gmap string value) (pairs : list value) :
    outcome (gmap string value) :=
  match pairs with
  | [] => Ret acc
  | VList [VStr k; v] :: rest => pairs_to_dict (<[k := v]> acc) rest
  | VList [_; _] :: _ => Raise TypeError
  | VList _ :: _ | VStr _ :: _ | VDict _ :: _ => Raise ValueError
  | _ :: _ => Raise TypeError
  end.

(** The blob of a mapping the encoder covers. *)
Definition blob_of (d : gmap string value) : bytes :=
  match mini_packb d with
  | Ret blob => blob
  | Raise _ => []
  end.

Definition counting_token (n : nat) : string :=
  "sid-" +:+ pretty n.

Definition framing_digest (key msg : bytes) (digestmod : string) : string :=
  digestmod +:+ "(" +:+ String.string_of_list_byte key +:+ "," +:+
  String.string_of_list_byte msg +:+ ")".

#[export] Instance signer : Signer := {| sign := stamped_sign; unsign := stamped_unsign |}.
#[export] Instance serializer : Serializer := {| packb := mini_packb; unpackb := mini_unpackb |}.
#[export] Instance builtins : Builtins := {| dict_of_sequence := pairs_to_dict ∅ |}.
#[export] Instance tokens : Entropy := {| random_token := counting_token |}.
#[export] Instance digest : Hmac := {| hmac_hexdigest := framing_digest |}.

(** The scenario of the specification: a new session with
    [set("counter", 1)], about to be saved. *)
Definition counter : gmap string value := {[ "counter" := VInt 1 ]}.

Definition blank (now : Z) : state :=
  mkState (__init__ None None true now) ∅ [] 0 now.

Definition https : Request := mkRequest ∅ "https" [].

(** A session that was loaded with the identifier "abc", then invalidated. *)
Definition logged_out : state :=
  snd (invalidate
         (mkState (__init__ (Some counter) (Some "abc") true 10)
            {[ "warehouse/session/data/abc" := (blob_of counter, 43200) ]}
            [] 0 20)).

(** A new session after [session["counter"] = 1]. *)
Definition counted : state :=
  snd (__setitem__ "counter" (VInt 1) (blank 10)).

(** A session with a CSRF token and an identifier. *)
Definition with_token : state :=
  mkState (__init__ (Some {[ "_csrf_token" := VStr "seed" ]}) (Some "abc") true 10)
    ∅ [] 0 10.

End Reference.

(** What an operation leaves in the dirty flag. *)
Definition dirty_after {A} (op : M A) (st : state) : bool :=
  _changed (session (snd (op st))).

(** The cookies a browser holds after it has received a response. *)
Definition receive (jar : gmap string string) (d : cookie_directive) : gmap string string :=
  match d with
  | SetCookie name val _ _ _ => <[name := val]> jar
  | DeleteCookie name => delete name jar
  end.

Definition cookie_jar (directives : list cookie_directive) : gmap string string :=
  foldl receive ∅ directives.

(** [session[k] = v] for each entry, in the order given. *)
Fixpoint set_entries (entries : list (string * value)) : M unit :=
  match entries with
  | [] => ret tt
  | (k, v) :: rest => __setitem__ k v ;; set_entries rest
  end.

Definition assign (d : gmap string value) (kv : string * value) : gmap string value :=
  <[kv.1 := kv.2]> d.

Section Readings.

Context `{!Signer, !Entropy}.

(** The identifier [sid] reads in a state: the stored one, or else the
    next random token. *)
Definition sid_read (st : state) : string :=
  default (random_token (entropy st)) (_sid (session st)).

(** The number of tokens drawn once [sid] has been read. *)
Definition entropy_read (st : state) : nat :=
  match _sid (session st) with
  | Some _ => entropy st
  | None => S (entropy st)
  end.

(** What saving a session adds to the response. *)
Definition session_cookie (request : Request) (session_id : string) (now : Z) :
    cookie_directive :=
  SetCookie "session_id" (sign (encode_utf8 session_id) now) 43200 true
    (bool_decide (scheme request = "https")).

End Readings.

(** ** The access guard: InvalidSession, the tween and uses_session *)

(** What [request.session] and [request._session] refer to: the session
    the factory has built, which lives in the state, or an
    [InvalidSession()], which holds nothing. *)
Inductive session_ref : Type :=
  | real_session
  | invalid_session.

(** A request under the tween: its two attributes, and the state behind
    them. *)
Record guarded : Type := mkGuarded {
  request_session : session_ref;
  request__session : option session_ref;
  world : state
}.

(** An exception of a view: the [RuntimeError] of the guard, or one that a
    session method raised. *)
Inductive view_exn : Type :=
  | RuntimeError (message : string)
  | Raised (e : exn).

Inductive view_outcome (A : Type) : Type :=
  | Returned (a : A)
  | Thrown (e : view_exn).
Arguments Returned {A} a.
Arguments Thrown {A} e.

(** A view, or a handler, applied to the request. *)
Definition G (A : Type) : Type := guarded → view_outcome A * guarded.

Definition g_ret {A} (a : A) : G A := fun g => (Returned a, g).

Definition g_raise {A} (e : view_exn) : G A := fun g => (Thrown e, g).

Definition g_bind {A B} (c : G A) (k : A → G B) : G B :=
  fun g =>
    match c g with
    | (Returned a, g') => k a g'
    | (Thrown e, g') => (Thrown e, g')
    end.

(** [try: return body finally: cleanup]: the cleanup runs either way, and
    an exception of its own replaces the outcome of the body. *)
Definition try_finally {A} (body : G A) (cleanup : G unit) : G A :=
  fun g =>
    match body g with
    | (r, g') =>
      match cleanup g' with
      | (Returned _, g'') => (r, g'')
      | (Thrown e, g'') => (Thrown e, g'')
      end
    end.

Definition _error_message {A} : G A :=
  g_raise (RuntimeError "Cannot use request.session in a view without @uses_session.").

(** The decorator of [InvalidSession]: whatever the method and its
    arguments, call [_error_message]. *)
Definition _invalid_method {A} (method : M A) : G A := _error_message.

(** A session method running on the session in the state. *)
Definition on_real {A} (method : M A) : G A :=
  fun g =>
    match method (world g) with
    | (Ret a, st) => (Returned a, mkGuarded (request_session g) (request__session g) st)
    | (Raise e, st) => (Thrown (Raised e), mkGuarded (request_session g) (request__session g) st)
    end.

(** What a view does with [request.session]: a call of one of the
    methods embedded above, a read of the [sid] property, or [del] on it.
    (Comparing the session, printing it and assigning to an attribute of
    it are not among them.) *)
Inductive session_op : Type → Type :=
  | call_contains (k : string) : session_op bool
  | call_delitem (k : string) : session_op unit
  | call_getitem (k : string) : session_op value
  | call_setitem (k : string) (v : value) : session_op unit
  | call_clear : session_op unit
  | call_get (k : string) (dflt : value) : session_op value
  | call_pop (k : string) (dflt : option value) : session_op value
  | call_popitem : session_op (string * value)
  | call_setdefault (k : string) (dflt : value) : session_op value
  | call_update (other : gmap string value) : session_op unit
  | read_sid : session_op string
  | delete_sid : session_op unit
  | call_changed : session_op unit
  | call_invalidate : session_op unit
  | call_should_save : session_op bool
  | call_flash (msg : value) (queue : string) (allow_duplicate : bool) : session_op unit
  | call_peek_flash (queue : string) : session_op value
  | call_pop_flash (queue : string) : session_op value
  | call_new_csrf_token : session_op value
  | call_get_csrf_token : session_op value
  | call_get_scoped_csrf_token (scope : string) : session_op string
  | call_has_csrf_token : session_op bool.

(** The operation on a [Session]. *)
Definition run_op `{!Entropy, !Hmac} {A} (op : session_op A) : M A :=
  match op in session_op T return M T with
  | call_contains k => dict_contains k
  | call_delitem k => __delitem__ k
  | call_getitem k => dict_getitem k
  | call_setitem k v => __setitem__ k v
  | call_clear => clear
  | call_get k dflt => dict_get k dflt
  | call_pop k dflt => pop k dflt
  | call_popitem => popitem
  | call_setdefault k dflt => setdefault k dflt
  | call_update other => update other
  | read_sid => sid
  | delete_sid => del_sid
  | call_changed => changed
  | call_invalidate => invalidate
  | call_should_save => should_save
  | call_flash msg queue allow_duplicate => flash msg queue allow_duplicate
  | call_peek_flash queue => peek_flash queue
  | call_pop_flash queue => pop_flash queue
  | call_new_csrf_token => new_csrf_token
  | call_get_csrf_token => get_csrf_token
  | call_get_scoped_csrf_token scope => get_scoped_csrf_token scope
  | call_has_csrf_token => has_csrf_token
  end.

(** Whether [InvalidSession] answers the operation with [_error_message]:
    it does for the dict methods it decorates and, through [__getattr__],
    for every attribute it does not have, so for all the reads and calls
    above. [del] on an attribute goes through neither. *)
Definition intercepted {A} (op : session_op A) : bool :=
  match op with
  | delete_sid => false
  | _ => true
  end.

(** The operation on an [InvalidSession]: [del request.session.sid] finds
    no attribute to delete. *)
Definition run_invalid `{!Entropy, !Hmac} {A} (op : session_op A) : G A :=
  if intercepted op
  then _invalid_method (run_op op)
  else g_raise (Raised AttributeError).

(** The operation on whatever [request.session] refers to. *)
Definition on_session `{!Entropy, !Hmac} {A} (op : session_op A) : G A :=
  fun g =>
    match request_session g with
    | real_session => on_real (run_op op) g
    | invalid_session => run_invalid op g
    end.

Definition set_request_session (r : session_ref) : G unit :=
  fun g => (Returned tt, mkGuarded r (request__session g) (world g)).

Definition set_request__session (r : session_ref) : G unit :=
  fun g => (Returned tt, mkGuarded (request_session g) (Some r) (world g)).

Definition get_request_session : G session_ref :=
  fun g => (Returned (request_session g), g).

(** Reading [request._session]: an attribute that was never set raises. *)
Definition get_request__session : G session_ref :=
  fun g =>
    match request__session g with
    | Some r => (Returned r, g)
    | None => (Thrown (Raised AttributeError), g)
    end.

(** [session_tween_factory(handler, registry)]: the tween around
    [handler]. *)
Definition session_tween {A} (handler : G A) : G A :=
  g_bind get_request_session (fun real =>
  g_bind (set_request__session real) (fun _ =>
  g_bind (set_request_session invalid_session) (fun _ =>
  try_finally handler
    (g_bind get_request__session set_request_session)))).

(** [warehouse.utils.http.add_vary], which this module only calls: a
    decorator of views. *)
Class Http : Type := {
  add_vary : ∀ A : Type, string → G A → G A
}.

(** [uses_session(view)]: put the session back, call the view; the whole
    wrapped in [add_vary("Cookie")]. *)
Definition uses_session `{!Http} {A} (view : G A) : G A :=
  add_vary A "Cookie"
    (g_bind get_request__session (fun real =>
     g_bind (set_request_session real) (fun _ => view))).

(** [SessionFactory.__call__]. *)
Definition __call__ `{!Signer, !Serializer, !Builtins} (request : Request)
    (store : gmap string (bytes * Z)) (now : Z) : outcome Session * Request :=
  _process_request request store now.

(** ** Scenarios *)

(** [flash(msg, queue)] for each message in turn. *)
Fixpoint flash_each (msgs : list value) (queue : string) : M unit :=
  match msgs with
  | [] => ret tt
  | msg :: rest => flash msg queue true ;; flash_each rest queue
  end.

(** The state with the dirty flag set and nothing else changed. *)
Definition marked (st : state) : state :=
  mkState (with_changed true (session st)) (redis st) (response st) (entropy st) (clock st).

(** The state with other data in the session. *)
Definition with_session_data (d : gmap string value) (st : state) : state :=
  mkState (with_data (fun _ => d) (session st)) (redis st) (response st)
    (entropy st) (clock st).

(** A session that was invalidated and then written to again. *)
Module Cases.

Definition logged_out_then_set : state :=
  snd (__setitem__ "n" (VInt 2) Reference.logged_out).

End Cases.

(** A decorator that adds nothing to what is modelled here: the header it
    arranges for is set on the response once the view has returned. *)
Module Plain.

#[export] Instance http : Http := {| add_vary := fun A _ view => view |}.

End Plain.

(** * Properties *)

Ltac unfold_monad :=
  unfold _changed_method, changed, bind, ret, raise, get_self, modify_self,
    time_time, when in *.

Ltac run := unfold_monad; cbn [fst snd session redis response entropy clock
  data _sid _changed new created invalidated
  with_data with_sid with_changed with_new with_created with_invalidated] in *.

Section Dirty_tracking.

(** C4. Every mutating method of the session (item assignment, item
    deletion, clear, pop, popitem, setdefault, update) leaves the dirty flag
    set, whatever the state and the arguments, also when it raises and also
    when the value written is the one already stored; and should_save
    returns the dirty flag and changes nothing. *)
Theorem mutators_mark_dirty (st : state) (k : string) (v dflt : value)
    (d : option value) (other : gmap string value) :
  dirty_after (__setitem__ k v) st = true ∧
  dirty_after (__delitem__ k) st = true ∧
  dirty_after clear st = true ∧
  dirty_after (pop k d) st = true ∧
  dirty_after popitem st = true ∧
  dirty_after (setdefault k dflt) st = true ∧
  dirty_after (update other) st = true ∧
  (let written := snd (modify_self (with_changed false) (snd (__setitem__ k v st))) in
   _changed (session written) = false ∧
   data (session (snd (__setitem__ k v written))) = data (session written) ∧
   dirty_after (__setitem__ k v) written = true) ∧
  should_save st = (Ret (_changed (session st)), st).
Proof.
  unfold dirty_after, __setitem__, __delitem__, clear, pop, popitem, setdefault,
    update, dict_setitem, dict_delitem, dict_clear, dict_pop, dict_popitem,
    dict_setdefault, dict_update, should_save.
  run.
  repeat split; try reflexivity.
  - destruct (data (session st) !! k); reflexivity.
  - destruct (data (session st) !! k), d; reflexivity.
  - destruct (map_to_list (data (session st))) as [|[k' v'] rest]; reflexivity.
  - destruct (data (session st) !! k); reflexivity.
  - apply insert_insert_eq.
Qed.

(** C5. After invalidate the data is empty, the session is new again,
    created is the current clock reading, invalidated is set and the dirty
    flag is cleared: should_save answers no, reading the session keeps it
    so, and the next assignment makes it answer yes. *)
Theorem invalidate_resets (st : state) :
  let st' := snd (invalidate st) in
  fst (invalidate st) = Ret tt ∧
  data (session st') = ∅ ∧
  new (session st') = true ∧
  created (session st') = clock st ∧
  invalidated (session st') = true ∧
  _changed (session st') = false ∧
  fst (should_save st') = Ret false ∧
  (∀ k dflt, snd (dict_get k dflt st') = st') ∧
  (∀ k v, fst (should_save (snd (__setitem__ k v st'))) = Ret true).
Proof.
  unfold invalidate, clear, dict_clear, should_save, dict_get, __setitem__, dict_setitem.
  run. repeat split.
Qed.

End Dirty_tracking.

Section Persisting.

Context `{!Signer, !Serializer, !Entropy, !Hmac}.

Lemma eqb_https (s : string) : String.eqb s "https" = bool_decide (s = "https").
Proof.
  destruct (String.eqb_spec s "https") as [->|Hne].
  - reflexivity.
  - symmetry. apply bool_decide_eq_false. exact Hne.
Qed.

(** [_process_response] on a session that has not been invalidated. If
    msgpack raises, the identifier has been read and nothing written. *)
Lemma process_response_live (request : Request) (st : state) :
  invalidated (session st) = false →
  _process_response request st =
    if _changed (session st)
    then match packb (data (session st)) with
         | Ret blob =>
           (Ret tt,
            mkState (with_sid (Some (sid_read st)) (session st))
              (<[_redis_key (sid_read st) := (blob, max_age)]> (redis st))
              (response st ++ [session_cookie request (sid_read st) (clock st)])
              (entropy_read st) (clock st))
         | Raise e =>
           (Raise e,
            mkState (with_sid (Some (sid_read st)) (session st))
              (redis st) (response st) (entropy_read st) (clock st))
         end
    else (Ret tt, st).
Proof.
  intros Hinv.
  unfold _process_response, msgpack_packb, sid_read, entropy_read, session_cookie.
  destruct st as [[d i c n t inv] r resp e clk]; cbn in Hinv; subst inv.
  rewrite <- eqb_https.
  destruct c, i; try reflexivity;
    unfold bind, when, get_self, should_save, sid, ret, crypto_random_token, modify_self;
    cbn [session redis response entropy clock data _sid _changed invalidated fst snd
         with_sid negb];
    destruct (packb d); reflexivity.
Qed.

(** [_process_response] on an invalidated session. If msgpack raises, the
    old entry is gone, the new identifier has been drawn, and nothing is
    written. *)
Lemma process_response_invalidated (request : Request) (st : state) :
  invalidated (session st) = true →
  _process_response request st =
    let old := sid_read st in
    let fresh := random_token (entropy_read st) in
    if _changed (session st)
    then match packb (data (session st)) with
         | Ret blob =>
           (Ret tt,
            mkState (with_sid (Some fresh) (session st))
              (<[_redis_key fresh := (blob, max_age)]>
                 (delete (_redis_key old) (redis st)))
              (response st ++ [session_cookie request fresh (clock st)])
              (S (entropy_read st)) (clock st))
         | Raise e =>
           (Raise e,
            mkState (with_sid (Some fresh) (session st))
              (delete (_redis_key old) (redis st))
              (response st) (S (entropy_read st)) (clock st))
         end
    else (Ret tt,
          mkState (with_sid None (session st))
            (delete (_redis_key old) (redis st))
            (response st ++ [DeleteCookie cookie_name])
            (entropy_read st) (clock st)).
Proof.
  intros Hinv.
  unfold _process_response, msgpack_packb, sid_read, entropy_read, session_cookie.
  destruct st as [[d i c n t inv] r resp e clk]; cbn in Hinv; subst inv.
  rewrite <- eqb_https.
  destruct c, i; try reflexivity;
    unfold bind, when, get_self, should_save, sid, del_sid, ret, crypto_random_token,
      modify_self, redis_delete;
    cbn [session redis response entropy clock data _sid _changed invalidated fst snd
         with_sid negb default];
    destruct (packb d); reflexivity.
Qed.

(** C6. For an invalidated session, response processing deletes the store
    entry under the key of the session's identifier and forgets the
    identifier. If the session is not dirty, that is all it does to the
    store, and the response is told to delete the cookie. If the session is
    dirty, the response gets no deletion: a new identifier is drawn, and
    once msgpack has encoded the data, the data is stored under the key of
    the new identifier and the response carries the cookie for it. If
    msgpack raises instead, the old entry is deleted all the same, and
    the exception leaves the response and the rest of the store alone. *)
Theorem invalidated_session_is_deleted (request : Request) (st : state) :
  invalidated (session st) = true →
  let st' := snd (_process_response request st) in
  let old := sid_read st in
  let fresh := random_token (entropy_read st) in
  if _changed (session st)
  then match packb (data (session st)) with
       | Ret blob =>
         fst (_process_response request st) = Ret tt ∧
         redis st' =
           <[_redis_key fresh := (blob, 43200)]> (delete (_redis_key old) (redis st)) ∧
         _sid (session st') = Some fresh ∧
         response st' = response st ++ [session_cookie request fresh (clock st)]
       | Raise e =>
         fst (_process_response request st) = Raise e ∧
         redis st' = delete (_redis_key old) (redis st) ∧
         _sid (session st') = Some fresh ∧
         response st' = response st
       end
  else fst (_process_response request st) = Ret tt ∧
       redis st' = delete (_redis_key old) (redis st) ∧
       _sid (session st') = None ∧
       response st' = response st ++ [DeleteCookie "session_id"].
Proof.
  intros Hinv. cbn zeta. rewrite (process_response_invalidated request st Hinv).
  cbn zeta. destruct (_changed (session st)); [destruct (packb (data (session st)))|];
    cbn [fst snd redis response session]; repeat split.
Qed.

(** Saving a dirty session, whether or not it has been invalidated, when
    msgpack encodes its data. *)
Lemma process_response_dirty (request : Request) (st : state) (blob : bytes) :
  _changed (session st) = true →
  packb (data (session st)) = Ret blob →
  let st' := snd (_process_response request st) in
  let session_id :=
    if invalidated (session st) then random_token (entropy_read st) else sid_read st in
  fst (_process_response request st) = Ret tt ∧
  _sid (session st') = Some session_id ∧
  data (session st') = data (session st) ∧
  redis st' !! _redis_key session_id = Some (blob, max_age) ∧
  last (response st') = Some (session_cookie request session_id (clock st)).
Proof.
  intros Hdirty Hpack. cbn zeta.
  destruct (invalidated (session st)) eqn:Hinv.
  - rewrite (process_response_invalidated request st Hinv). cbn zeta.
    rewrite Hdirty, Hpack. cbn [fst snd redis response session with_sid _sid data].
    repeat split.
    + apply lookup_insert_eq.
    + apply last_snoc.
  - rewrite (process_response_live request st Hinv).
    rewrite Hdirty, Hpack. cbn [fst snd redis response session with_sid _sid data].
    repeat split.
    + apply lookup_insert_eq.
    + apply last_snoc.
Qed.

(** The exception of msgpack comes out of [_process_response]. *)
Lemma process_response_unpackable (request : Request) (st : state) (e : exn) :
  _changed (session st) = true →
  packb (data (session st)) = Raise e →
  fst (_process_response request st) = Raise e ∧
  response (snd (_process_response request st)) = response st.
Proof.
  intros Hdirty Hpack.
  destruct (invalidated (session st)) eqn:Hinv.
  - rewrite (process_response_invalidated request st Hinv). cbn zeta.
    rewrite Hdirty, Hpack. split; reflexivity.
  - rewrite (process_response_live request st Hinv).
    rewrite Hdirty, Hpack. split; reflexivity.
Qed.

(** C9. For a session whose should_save is true and whose data msgpack
    encodes, response processing stores the packed data under
    "warehouse/session/data/<identifier>" with an expiry of 43200 seconds,
    and ends the response with a cookie named session_id that holds the
    signed identifier, with max-age 43200, http-only, and secure exactly
    when the request scheme is https. The identifier is the one the session
    has when it is saved: its own, or a newly drawn one if it had none or
    has just been invalidated. *)
Theorem dirty_session_is_saved (request : Request) (st : state) (blob : bytes) :
  fst (should_save st) = Ret true →
  packb (data (session st)) = Ret blob →
  let st' := snd (_process_response request st) in
  let session_id :=
    if invalidated (session st) then random_token (entropy_read st) else sid_read st in
  fst (_process_response request st) = Ret tt ∧
  _sid (session st') = Some session_id ∧
  data (session st') = data (session st) ∧
  redis st' !! ("warehouse/session/data/" +:+ session_id) = Some (blob, 43200) ∧
  last (response st') =
    Some (SetCookie "session_id" (sign (encode_utf8 session_id) (clock st)) 43200 true
            (bool_decide (scheme request = "https"))).
Proof.
  unfold should_save. run. intros [= Hdirty] Hpack.
  exact (process_response_dirty request st blob Hdirty Hpack).
Qed.

(** ** CSRF tokens *)

(** [get_csrf_token] on a session without a token. *)
Lemma get_csrf_token_absent (st : state) :
  data (session st) !! _csrf_token_key = None →
  get_csrf_token st =
    (Ret (VStr (random_token (entropy st))),
     mkState
       (with_changed true
          (with_data (insert _csrf_token_key (VStr (random_token (entropy st))))
             (session st)))
       (redis st) (response st) (S (entropy st)) (clock st)).
Proof.
  intros Habsent.
  unfold get_csrf_token, new_csrf_token, dict_get, dict_getitem, __setitem__,
    dict_setitem, crypto_random_token.
  run. rewrite Habsent. cbn [default]. unfold_monad.
  cbn [fst snd session redis response entropy clock data with_data with_changed].
  rewrite lookup_insert_eq.
  destruct st as [[d i c n t inv] r resp e clk]; reflexivity.
Qed.

(** [get_csrf_token] on a session that holds a token. *)
Lemma get_csrf_token_present (st : state) (t : string) :
  data (session st) !! _csrf_token_key = Some (VStr t) →
  get_csrf_token st = (Ret (VStr t), st).
Proof.
  intros Hpresent. unfold get_csrf_token, dict_get. run.
  rewrite Hpresent. reflexivity.
Qed.

(** [get_scoped_csrf_token] once [get_csrf_token] has produced a string. *)
Lemma get_scoped_csrf_token_from (scope t : string) (st st1 : state) :
  get_csrf_token st = (Ret (VStr t), st1) →
  get_scoped_csrf_token scope st =
    (Ret (hmac_hexdigest
            (encode_utf8 (hmac_hexdigest (encode_utf8 t) (encode_utf8 scope) "sha512"))
            (encode_utf8 (sid_read st1)) "sha512"),
     mkState (with_sid (Some (sid_read st1)) (session st1))
       (redis st1) (response st1) (entropy_read st1) (clock st1)).
Proof.
  intros Hget. unfold get_scoped_csrf_token, bind. rewrite Hget.
  unfold value_encode, sid, sid_read, entropy_read, crypto_random_token. run.
  destruct (_sid (session st1)) eqn:Hsid; cbn [default]; [|reflexivity].
  destruct st1 as [[d i c n tm inv] r resp e clk]. cbn in Hsid. subst i. reflexivity.
Qed.

(** C10. On a session without a CSRF token, get_csrf_token returns the
    next random token, stores it under "_csrf_token" and sets the dirty
    flag, so should_save turns true; get_scoped_csrf_token leaves the same
    token and the dirty flag behind; and response processing then, once
    msgpack has encoded the data with the token in it, writes the store
    entry and sets the cookie. (If msgpack raises, that exception is the
    outcome of response processing.) *)
Theorem reading_csrf_token_marks_dirty (request : Request) (scope : string) (st : state) :
  data (session st) !! "_csrf_token" = None →
  let t := random_token (entropy st) in
  let st1 := snd (get_csrf_token st) in
  let st2 := snd (get_scoped_csrf_token scope st) in
  let st3 := snd (_process_response request st1) in
  fst (get_csrf_token st) = Ret (VStr t) ∧
  data (session st1) = <["_csrf_token" := VStr t]> (data (session st)) ∧
  _changed (session st1) = true ∧
  fst (should_save st1) = Ret true ∧
  data (session st2) = <["_csrf_token" := VStr t]> (data (session st)) ∧
  _changed (session st2) = true ∧
  fst (should_save st2) = Ret true ∧
  match packb (<["_csrf_token" := VStr t]> (data (session st))) with
  | Ret blob =>
    fst (_process_response request st1) = Ret tt ∧
    ∃ session_id,
      redis st3 !! _redis_key session_id = Some (blob, 43200) ∧
      last (response st3) = Some (session_cookie request session_id (clock st))
  | Raise e => fst (_process_response request st1) = Raise e
  end.
Proof.
  intros Habsent. cbn zeta.
  pose proof (get_csrf_token_absent st Habsent) as Hget.
  rewrite (get_scoped_csrf_token_from scope _ st _ Hget).
  rewrite Hget. cbn [fst snd].
  repeat split.
  match goal with |- context [_process_response request ?s] => set (st1 := s) end.
  destruct (packb (<["_csrf_token" := VStr (random_token (entropy st))]> (data (session st))))
    as [blob|e] eqn:Hpack.
  - destruct (process_response_dirty request st1 blob eq_refl Hpack)
      as (Hret & _ & _ & Hstore & Hcookie).
    split; [exact Hret|]. eexists. split; [exact Hstore | exact Hcookie].
  - exact (proj1 (process_response_unpackable request st1 e eq_refl Hpack)).
Qed.

(** C7. On a session that holds the unscoped token [t] and has the
    identifier [session_id], get_scoped_csrf_token returns the hex digest
    of the sha512 HMAC keyed by H2 over the identifier, where H2 is the hex
    digest of the sha512 HMAC keyed by [t] over the scope; the session is
    left as it was. *)
Theorem scoped_csrf_token_is_nested_hmac (scope t session_id : string) (st : state) :
  data (session st) !! "_csrf_token" = Some (VStr t) →
  _sid (session st) = Some session_id →
  let h2 := hmac_hexdigest (encode_utf8 t) (encode_utf8 scope) "sha512" in
  get_scoped_csrf_token scope st =
    (Ret (hmac_hexdigest (encode_utf8 h2) (encode_utf8 session_id) "sha512"), st).
Proof.
  intros Htoken Hsid. cbn zeta.
  rewrite (get_scoped_csrf_token_from scope t st st (get_csrf_token_present st t Htoken)).
  unfold sid_read, entropy_read. rewrite Hsid. cbn [default].
  destruct st as [[d i c n tm inv] r resp e clk]. cbn in Hsid. subst i. reflexivity.
Qed.

End Persisting.

Section Loading.

Context `{!Signer, !Serializer, !Builtins, !Entropy, !Hmac}.

(** The session that [Session()] builds when the clock reads [now]. *)
Lemma empty_session_fields (now : Z) :
  let s := __init__ None None true now in
  data s = ∅ ∧ _sid s = None ∧ _changed s = false ∧ new s = true ∧
  created s = now ∧ invalidated s = false.
Proof. repeat split. Qed.

(** [_process_request] registers the response callback, whatever it
    loads. *)
Lemma process_request_registers (request : Request)
    (store : gmap string (bytes * Z)) (now : Z) :
  response_callbacks (snd (_process_request request store now)) =
    response_callbacks request ++ [process_response_callback].
Proof. reflexivity. Qed.

(** A request without the session cookie, with a cookie whose signature is
    bad, with a cookie older than 43200 seconds, with an identifier that
    has no entry in the store, or with an entry on which msgpack raises
    UnpackException or ExtraData: each is answered, without an exception,
    by the empty session that [Session()] builds, which has no data and no
    identifier. *)
Lemma caught_failures_give_new_session (request : Request)
    (store : gmap string (bytes * Z)) (now : Z) :
  ( cookies request !! "session_id" = None
  ∨ ∃ token, cookies request !! "session_id" = Some token ∧
      ( unsign token 43200 now = BadSignature
      ∨ unsign token 43200 now = SignatureExpired
      ∨ ∃ payload session_id,
          unsign token 43200 now = Unsigned payload ∧
          decode_utf8 payload = Some session_id ∧
          ( store !! ("warehouse/session/data/" +:+ session_id) = None
          ∨ ∃ blob ttl,
              store !! ("warehouse/session/data/" +:+ session_id) = Some (blob, ttl) ∧
              ( unpackb blob = Raise UnpackException
              ∨ unpackb blob = Raise ExtraData ) ) ) ) →
  fst (_process_request request store now) = Ret (__init__ None None true now) ∧
  data (__init__ None None true now) = ∅ ∧
  _sid (__init__ None None true now) = None.
Proof.
  intros Hcase. split; [|split; reflexivity].
  unfold _process_request, load_session, cookie_name, max_age, _redis_key.
  cbn [fst add_response_callback cookies].
  change (12 * 60 * 60) with 43200.
  destruct Hcase as [-> | (token & -> & Hcase)]; [reflexivity|].
  destruct Hcase as [-> | [-> | (payload & session_id & -> & -> & Hcase)]];
    [reflexivity | reflexivity |].
  destruct Hcase as [-> | (blob & ttl & -> & [Hblob | Hblob])]; [reflexivity | |];
    cbn [fmap option_fmap option_map fst]; rewrite Hblob; reflexivity.
Qed.

(** C3 (what the code does). A stored blob on which msgpack raises
    anything but UnpackException and ExtraData, such as the
    UnicodeDecodeError of a string that is not UTF-8, is not answered by a
    new session: the exception comes out of [_process_request], whose
    handler around [unpackb] names those two only. *)
Theorem corrupt_payload_escapes (request : Request)
    (store : gmap string (bytes * Z)) (now : Z)
    (token : string) (payload : bytes) (session_id : string)
    (blob : bytes) (ttl : Z) (e : exn) :
  cookies request !! "session_id" = Some token →
  unsign token 43200 now = Unsigned payload →
  decode_utf8 payload = Some session_id →
  store !! ("warehouse/session/data/" +:+ session_id) = Some (blob, ttl) →
  unpackb blob = Raise e →
  e ≠ UnpackException →
  e ≠ ExtraData →
  fst (_process_request request store now) = Raise e.
Proof.
  intros Hcookie Hsig Hutf Hstore Hblob Hunpack Hextra.
  unfold _process_request, load_session, cookie_name, max_age, _redis_key.
  cbn [fst add_response_callback cookies].
  change (12 * 60 * 60) with 43200.
  rewrite Hcookie, Hsig, Hutf, Hstore.
  cbn [fmap option_fmap option_map fst]. rewrite Hblob.
  destruct e; try reflexivity; contradiction.
Qed.

(** A stored blob that unpacks to something [dict()] does not take, such
    as a number, is not answered by a new session either: the exception of
    [Session(data, session_id)] comes out of [_process_request]. *)
Lemma unpacked_object_escapes (request : Request)
    (store : gmap string (bytes * Z)) (now : Z)
    (token : string) (payload : bytes) (session_id : string)
    (blob : bytes) (ttl : Z) (obj : value) (e : exn) :
  cookies request !! "session_id" = Some token →
  unsign token 43200 now = Unsigned payload →
  decode_utf8 payload = Some session_id →
  store !! ("warehouse/session/data/" +:+ session_id) = Some (blob, ttl) →
  unpackb blob = Ret obj →
  dict_of obj = Raise e →
  fst (_process_request request store now) = Raise e.
Proof.
  intros Hcookie Hsig Hutf Hstore Hblob Hdict.
  unfold _process_request, load_session, cookie_name, max_age, _redis_key.
  cbn [fst add_response_callback cookies].
  change (12 * 60 * 60) with 43200.
  rewrite Hcookie, Hsig, Hutf, Hstore.
  cbn [fmap option_fmap option_map fst]. rewrite Hblob, Hdict. reflexivity.
Qed.

(** C2 (what the code does). A request whose cookie unsigns to an
    identifier, whose store entry exists and unpacks to [d], loads a
    session with the data [d] and that identifier, and with [new] set to
    true: [_process_request] builds it with [Session(data, session_id)],
    which leaves the third parameter at its default. *)
Theorem loaded_session_is_flagged_new (request : Request)
    (store : gmap string (bytes * Z)) (now : Z)
    (token : string) (payload : bytes) (session_id : string)
    (blob : bytes) (ttl : Z) (d : gmap string value) :
  cookies request !! "session_id" = Some token →
  unsign token 43200 now = Unsigned payload →
  decode_utf8 payload = Some session_id →
  store !! ("warehouse/session/data/" +:+ session_id) = Some (blob, ttl) →
  unpackb blob = Ret (VDict d) →
  ∃ s, fst (_process_request request store now) = Ret s ∧
       data s = d ∧ _sid s = Some session_id ∧ new s = true.
Proof.
  intros Hcookie Hsig Hutf Hstore Hblob.
  unfold _process_request, load_session, cookie_name, max_age, _redis_key.
  cbn [fst add_response_callback cookies].
  change (12 * 60 * 60) with 43200.
  rewrite Hcookie, Hsig, Hutf, Hstore.
  cbn [fmap option_fmap option_map fst]. rewrite Hblob.
  eexists. split; [reflexivity|]. repeat split.
Qed.

End Loading.

Section Round_trip.

Context `{!Signer, !Serializer, !Builtins, !Entropy, !Hmac}.

(** Assigning the entries one after the other. *)
Lemma set_entries_run (entries : list (string * value)) (st : state) :
  set_entries entries st =
    (Ret tt,
     mkState
       (with_changed (match entries with [] => _changed (session st) | _ => true end)
          (with_data (fun d => foldl assign d entries) (session st)))
       (redis st) (response st) (entropy st) (clock st)).
Proof.
  revert st. induction entries as [|[k v] rest IH]; intros st.
  - destruct st as [[d i c n t inv] r resp e clk]. reflexivity.
  - cbn [set_entries]. unfold __setitem__, dict_setitem. run.
    rewrite IH. destruct rest; reflexivity.
Qed.

(** Assigning entries with distinct keys builds the map they list. *)
Lemma foldl_assign (entries : list (string * value)) (d : gmap string value) :
  NoDup entries.*1 →
  foldl assign d entries = list_to_map entries ∪ d.
Proof.
  revert d. induction entries as [|[k v] rest IH]; intros d Hnodup.
  - cbn. by rewrite (left_id_L ∅ (∪)).
  - cbn [foldl]. apply NoDup_cons in Hnodup as [Hfresh Hnodup].
    rewrite (IH _ Hnodup). unfold assign. cbn [fst snd list_to_map foldr uncurry].
    rewrite <- insert_union_l.
    symmetry. apply insert_union_r.
    by apply not_elem_of_list_to_map_1.
Qed.

Lemma foldl_assign_entries (m : gmap string value) (entries : list (string * value)) :
  entries ≡ₚ map_to_list m →
  foldl assign ∅ entries = m.
Proof.
  intros Hperm.
  assert (NoDup entries.*1) as Hnodup.
  { rewrite Hperm. apply NoDup_fst_map_to_list. }
  rewrite (foldl_assign _ _ Hnodup), (right_id_L ∅ (∪)).
  rewrite (list_to_map_proper _ _ Hnodup Hperm).
  apply list_to_map_to_list.
Qed.

(** C1. Take a mapping [m] that the serializer encodes and gives back as
    it was, a signer that accepts, when the cookie comes back, the token it
    issued, and a generator whose token is text. A new session on which
    each entry of [m] is assigned, in any order, and which response
    processing then persists, is found again by a request that presents the
    cookies of that response: the session it loads has the data [m]. *)
Theorem round_trip (m : gmap string value) (entries : list (string * value))
    (request : Request) (store : gmap string (bytes * Z)) (drawn : nat)
    (now later : Z) (scheme' : string) (blob : bytes) :
  entries ≡ₚ map_to_list m →
  packb m = Ret blob →
  unpackb blob = Ret (VDict m) →
  unsign (sign (encode_utf8 (random_token drawn)) now) 43200 later =
    Unsigned (encode_utf8 (random_token drawn)) →
  decode_utf8 (encode_utf8 (random_token drawn)) = Some (random_token drawn) →
  let st0 := mkState (__init__ None None true now) store [] drawn now in
  let st1 := snd (set_entries entries st0) in
  let st2 := snd (_process_response request st1) in
  let request' := mkRequest (cookie_jar (response st2)) scheme' [] in
  ∃ s, fst (_process_request request' (redis st2) later) = Ret s ∧ data s = m.
Proof.
  intros Hperm Hpack Hunpack Hsign Htext. cbn zeta.
  rewrite set_entries_run. cbn [snd].
  rewrite process_response_live by reflexivity.
  cbn [session with_changed with_data _changed data __init__ default].
  rewrite (foldl_assign_entries m entries Hperm).
  unfold _process_request, load_session.
  cbn [fst add_response_callback cookies].
  destruct entries as [|entry rest].
  - (* nothing assigned: nothing saved, no cookie, and [m] is empty *)
    apply Permutation_nil_l in Hperm. symmetry in Hperm.
    apply map_to_list_empty_iff in Hperm. subst m.
    cbn [snd response]. eexists. split; reflexivity.
  - rewrite Hpack. cbn [snd response redis app clock].
    unfold sid_read. cbn [session _sid entropy default].
    unfold cookie_jar, session_cookie.
    cbn [foldl receive cookies].
    unfold cookie_name. rewrite lookup_insert_eq.
    unfold max_age. change (12 * 60 * 60) with 43200.
    cbn [with_changed with_data _sid __init__ default].
    rewrite Hsign, Htext, lookup_insert_eq.
    cbn [fmap option_fmap option_map fst]. rewrite Hunpack.
    eexists. split; reflexivity.
Qed.

End Round_trip.

Section Flash.

(** C8 (what the code does). On a session without the queue, flash with
    allow_duplicate false raises KeyError and leaves the session as it was:
    the membership test reads [self[queue_key]] before [setdefault] has
    created the queue. *)
Theorem flash_without_queue_raises (msg : value) (queue : string) (st : state) :
  data (session st) !! _get_flash_queue_key queue = None →
  flash msg queue false st = (Raise KeyError, st).
Proof.
  intros Hmissing. unfold flash, dict_getitem. cbn [negb]. run.
  rewrite Hmissing. reflexivity.
Qed.

(** On a queue that exists, the membership test decides: a message that is
    in the queue is not queued again, and the session is not touched. *)
Lemma flash_skips_duplicate (msg : value) (queue : string) (l : list value) (st : state) :
  data (session st) !! _get_flash_queue_key queue = Some (VList l) →
  existsb (py_eq msg) l = true →
  flash msg queue false st = (Ret tt, st).
Proof.
  intros Hqueue Hin. unfold flash, dict_getitem, py_in. cbn [negb]. run.
  rewrite Hqueue. run. rewrite Hin. reflexivity.
Qed.

(** With duplicates allowed, flash creates the queue if need be and appends. *)
Lemma flash_appends (msg : value) (queue : string) (st : state) :
  let key := _get_flash_queue_key queue in
  let old := match data (session st) !! key with Some (VList l) => l | _ => [] end in
  (data (session st) !! key = None ∨ ∃ l, data (session st) !! key = Some (VList l)) →
  flash msg queue true st =
    (Ret tt,
     mkState
       (with_changed true (with_data (insert key (VList (old ++ [msg]))) (session st)))
       (redis st) (response st) (entropy st) (clock st)).
Proof.
  cbn zeta. intros Hqueue.
  unfold flash, setdefault, dict_setdefault, append_in_place. cbn [negb]. run.
  destruct Hqueue as [Hqueue | [l Hqueue]]; rewrite Hqueue; run.
  - cbn [app]. unfold with_data, with_changed.
    cbn [data _sid _changed new created invalidated].
    rewrite insert_insert_eq. reflexivity.
  - reflexivity.
Qed.

(** peek_flash reads the queue and leaves the session alone; pop_flash
    returns it, removes the key and marks the session. *)
Lemma peek_and_pop_flash (queue : string) (st : state) :
  let key := _get_flash_queue_key queue in
  let messages := default (VList []) (data (session st) !! key) in
  peek_flash queue st = (Ret messages, st) ∧
  pop_flash queue st =
    (Ret messages,
     mkState (with_changed true (with_data (delete key) (session st)))
       (redis st) (response st) (entropy st) (clock st)).
Proof.
  cbn zeta. unfold peek_flash, pop_flash, dict_get, pop, dict_pop. run.
  split; [reflexivity|].
  destruct (data (session st) !! _get_flash_queue_key queue) eqn:Hqueue; run.
  - reflexivity.
  - unfold with_data at 1. cbn [data _sid _changed new created invalidated with_changed].
    rewrite (delete_id _ _ Hqueue).
    destruct st as [[d i c n t inv] r resp e clk]. reflexivity.
Qed.

End Flash.

(** * Further properties of the session *)

Section Mutators.

(** X1. Deleting a key that is not there, and popping it without a
    default, raise KeyError and leave the data alone, yet the session is
    marked dirty; popping it with a default returns the default, with the
    same effect on the session. *)
Theorem failed_removal_still_marks (st : state) (k : string) (dflt : value) :
  data (session st) !! k = None →
  __delitem__ k st = (Raise KeyError, marked st) ∧
  pop k None st = (Raise KeyError, marked st) ∧
  pop k (Some dflt) st = (Ret dflt, marked st).
Proof.
  intros Hmissing. unfold __delitem__, pop, dict_delitem, dict_pop, marked. run.
  rewrite Hmissing. repeat split.
Qed.

(** X2. popitem on a session without data raises KeyError and marks it
    dirty; on a session with data it returns an entry that was there and
    removes that entry and no other. *)
Theorem popitem_takes_an_entry (st : state) :
  match fst (popitem st) with
  | Raise e =>
    e = KeyError ∧ data (session st) = ∅ ∧ snd (popitem st) = marked st
  | Ret (k, v) =>
    data (session st) !! k = Some v ∧
    snd (popitem st) = marked (with_session_data (delete k (data (session st))) st)
  end.
Proof.
  unfold popitem, dict_popitem, marked, with_session_data. run.
  destruct (map_to_list (data (session st))) as [|[k v] rest] eqn:Hlist; run.
  - repeat split. by apply map_to_list_empty_iff.
  - split; [|reflexivity].
    apply elem_of_map_to_list. rewrite Hlist. apply list_elem_of_here.
Qed.

(** X3. After [session[k] = v], reading [k] gives [v], every other key
    reads as before, and deleting [k] succeeds and makes a further read of
    [k] raise KeyError and a membership test answer no. *)
Theorem setitem_then_read (st : state) (k k' : string) (v dflt : value) :
  let st1 := snd (__setitem__ k v st) in
  dict_getitem k st1 = (Ret v, st1) ∧
  fst (dict_get k' dflt st1) =
    (if decide (k = k') then Ret v else fst (dict_get k' dflt st)) ∧
  fst (__delitem__ k st1) = Ret tt ∧
  fst (dict_getitem k (snd (__delitem__ k st1))) = Raise KeyError ∧
  fst (dict_contains k (snd (__delitem__ k st1))) = Ret false.
Proof.
  cbn zeta. unfold __setitem__, __delitem__, dict_setitem, dict_delitem,
    dict_getitem, dict_get, dict_contains.
  run. rewrite lookup_insert_eq. run. rewrite lookup_delete_eq.
  repeat split.
  destruct (decide (k = k')) as [<-|Hne].
  - by rewrite lookup_insert_eq.
  - by rewrite lookup_insert_ne.
Qed.

(** setdefault does not overwrite: on a key that holds [v] it returns
    [v] and leaves the data alone; on a key that is not there it stores the
    default and returns it. Either way the session is marked dirty. *)
Theorem setdefault_keeps_present (st : state) (k : string) (dflt : value) :
  setdefault k dflt st =
    match data (session st) !! k with
    | Some v => (Ret v, marked st)
    | None => (Ret dflt, marked (with_session_data (<[k := dflt]> (data (session st))) st))
    end.
Proof.
  unfold setdefault, dict_setdefault, marked, with_session_data. run.
  destruct (data (session st) !! k); reflexivity.
Qed.

(** update: afterwards a key reads as the argument has it, and as the
    session had it where the argument has no value for it. *)
Theorem update_overrides (st : state) (other : gmap string value) (k : string) :
  update other st =
    (Ret tt, marked (with_session_data (other ∪ data (session st)) st)) ∧
  data (session (snd (update other st))) !! k =
    match other !! k with
    | Some v => Some v
    | None => data (session st) !! k
    end.
Proof.
  unfold update, dict_update, marked, with_session_data. run.
  split; [reflexivity|].
  rewrite lookup_union. destruct (other !! k), (data (session st) !! k); reflexivity.
Qed.

End Mutators.

Section Identifier_and_tokens.

Context `{!Signer, !Serializer, !Entropy, !Hmac}.

(** X4. The identifier is generated once: the first read of [sid] returns
    the stored identifier or draws one and stores it, a second read returns
    the same and draws nothing, and neither marks the session dirty. After
    [del sid] the next read draws the next token, whatever was stored. *)
Theorem sid_is_generated_once (st : state) :
  let st1 := snd (sid st) in
  fst (sid st) = Ret (sid_read st) ∧
  _sid (session st1) = Some (sid_read st) ∧
  entropy st1 = entropy_read st ∧
  sid st1 = (Ret (sid_read st), st1) ∧
  _changed (session st1) = _changed (session st) ∧
  data (session st1) = data (session st) ∧
  fst (sid (snd (del_sid st))) = Ret (random_token (entropy st)).
Proof.
  cbn zeta. unfold sid, del_sid, sid_read, entropy_read, crypto_random_token. run.
  destruct (_sid (session st)) eqn:Hsid; run; rewrite ?Hsid; repeat split.
Qed.

(** [get_csrf_token] in every case. *)
Lemma get_csrf_token_cases (st : state) :
  get_csrf_token st =
    match data (session st) !! _csrf_token_key with
    | None | Some VNone =>
      (Ret (VStr (random_token (entropy st))),
       mkState
         (with_changed true
            (with_data (insert _csrf_token_key (VStr (random_token (entropy st))))
               (session st)))
         (redis st) (response st) (S (entropy st)) (clock st))
    | Some v => (Ret v, st)
    end.
Proof.
  unfold get_csrf_token, new_csrf_token, dict_get, dict_getitem, __setitem__,
    dict_setitem, crypto_random_token.
  run.
  destruct (data (session st) !! _csrf_token_key) as [[]|] eqn:Hlookup; cbn [default];
    try reflexivity. all: unfold_monad.
    all: cbn [fst snd session redis response entropy clock data with_data with_changed].
    all: unfold id; cbv beta iota; rewrite lookup_insert_eq; reflexivity.
Qed.

(** A second [get_csrf_token] finds what the first one left. *)
Lemma get_csrf_token_again (st : state) :
  get_csrf_token (snd (get_csrf_token st)) =
    (fst (get_csrf_token st), snd (get_csrf_token st)).
Proof.
  rewrite (get_csrf_token_cases st).
  destruct (data (session st) !! _csrf_token_key) as [v|] eqn:Hlookup.
  - destruct v; cbn [fst snd];
      rewrite get_csrf_token_cases; cbn [session data with_data with_changed];
      rewrite ?lookup_insert_eq, ?Hlookup; reflexivity.
  - cbn [fst snd]. rewrite get_csrf_token_cases.
    cbn [session data with_data with_changed]. rewrite lookup_insert_eq. reflexivity.
Qed.

(** X5. The CSRF token is memoized: a second [get_csrf_token] returns what
    the first one returned and changes nothing, whatever the session held
    before. *)
Theorem csrf_token_is_memoized (st : state) :
  get_csrf_token (snd (get_csrf_token st)) =
    (fst (get_csrf_token st), snd (get_csrf_token st)).
Proof. exact (get_csrf_token_again st). Qed.

(** X6. [new_csrf_token] rotates: it returns the next random token, stores
    it over whatever was there and marks the session dirty; the token that
    [get_csrf_token] returns afterwards is the new one. *)
Theorem new_csrf_token_rotates (st : state) :
  let t := random_token (entropy st) in
  let st1 := snd (new_csrf_token st) in
  fst (new_csrf_token st) = Ret (VStr t) ∧
  data (session st1) = <["_csrf_token" := VStr t]> (data (session st)) ∧
  _changed (session st1) = true ∧
  get_csrf_token st1 = (Ret (VStr t), st1).
Proof.
  cbn zeta.
  assert (new_csrf_token st =
    (Ret (VStr (random_token (entropy st))),
     mkState
       (with_changed true
          (with_data (insert _csrf_token_key (VStr (random_token (entropy st))))
             (session st)))
       (redis st) (response st) (S (entropy st)) (clock st))) as Hnew.
  { unfold new_csrf_token, dict_getitem, __setitem__, dict_setitem, crypto_random_token.
    run. rewrite lookup_insert_eq. reflexivity. }
  rewrite Hnew. cbn [fst snd session data with_data with_changed _changed].
  repeat split.
  apply get_csrf_token_present. cbn [session data]. apply lookup_insert_eq.
Qed.

(** X7. [has_csrf_token] only looks: it answers whether the key is there
    and changes nothing, so it is false on a session without the key and
    true once [get_csrf_token] has run. *)
Theorem has_csrf_token_only_looks (st : state) :
  has_csrf_token st =
    (Ret (bool_decide (is_Some (data (session st) !! "_csrf_token"))), st) ∧
  fst (has_csrf_token (snd (get_csrf_token st))) = Ret true.
Proof.
  split; [reflexivity|].
  rewrite get_csrf_token_cases. unfold has_csrf_token, dict_contains. run.
  destruct (data (session st) !! _csrf_token_key) as [v|] eqn:Hlookup.
  - destruct v; cbn [snd session data with_data with_changed];
      rewrite ?lookup_insert_eq, ?Hlookup; reflexivity.
  - cbn [snd session data with_data with_changed]. rewrite lookup_insert_eq. reflexivity.
Qed.

(** X8. A scoped token is stable: once [get_scoped_csrf_token] has
    returned a token for a scope, asking again for that scope returns the
    same token and changes nothing. *)
Theorem scoped_csrf_token_is_stable (scope token : string) (st st1 : state) :
  get_scoped_csrf_token scope st = (Ret token, st1) →
  get_scoped_csrf_token scope st1 = (Ret token, st1).
Proof.
  intros Hfirst.
  destruct (get_csrf_token st) as [[v|e] st0] eqn:Hget.
  2:{ unfold get_scoped_csrf_token, bind in Hfirst. rewrite Hget in Hfirst. discriminate. }
  destruct v as [| | |t| |];
    try (unfold get_scoped_csrf_token, bind in Hfirst; rewrite Hget in Hfirst;
         discriminate).
  rewrite (get_scoped_csrf_token_from scope t st st0 Hget) in Hfirst.
  injection Hfirst as Htoken Hst1.
  assert (get_csrf_token st0 = (Ret (VStr t), st0)) as Hagain.
  { pose proof (get_csrf_token_again st) as Hmemo.
    rewrite Hget in Hmemo. exact Hmemo. }
  assert (data (session st0) !! _csrf_token_key = Some (VStr t)) as Hstored.
  { rewrite get_csrf_token_cases in Hagain.
    destruct (data (session st0) !! _csrf_token_key) as [[]|];
      try (injection Hagain as -> ; reflexivity);
      apply (f_equal (fun r => entropy (snd r))) in Hagain; cbn in Hagain; lia. }
  assert (get_csrf_token st1 = (Ret (VStr t), st1)) as Hget1.
  { apply get_csrf_token_present. subst st1. exact Hstored. }
  rewrite (get_scoped_csrf_token_from scope t st1 st1 Hget1).
  subst st1 token. unfold sid_read, entropy_read.
  cbn [session with_sid _sid default redis response entropy clock].
  destruct st0 as [[d i c n tm inv] r resp e clk]. reflexivity.
Qed.

(** X9. A stored token that is not a string makes
    [get_scoped_csrf_token] raise AttributeError, and the session is left
    as it was. *)
Theorem scoped_csrf_token_wants_a_string (scope : string) (v : value) (st : state) :
  data (session st) !! "_csrf_token" = Some v →
  v ≠ VNone →
  (∀ t, v ≠ VStr t) →
  get_scoped_csrf_token scope st = (Raise AttributeError, st).
Proof.
  intros Hlookup Hnone Hstr.
  unfold get_scoped_csrf_token, bind. rewrite get_csrf_token_cases.
  change _csrf_token_key with "_csrf_token". rewrite Hlookup.
  destruct v; try reflexivity.
  - contradiction.
  - exfalso. by eapply Hstr.
Qed.

End Identifier_and_tokens.

Section Flash_queues.

(** The key of the default queue and of a named one. *)
Lemma flash_queue_key (queue : string) :
  _get_flash_queue_key queue =
    if decide (queue = "") then "_flash_messages" else "_flash_messages." +:+ queue.
Proof. destruct queue; reflexivity. Qed.

Lemma flash_queue_key_inj (q1 q2 : string) :
  _get_flash_queue_key q1 = _get_flash_queue_key q2 → q1 = q2.
Proof.
  rewrite !flash_queue_key.
  destruct (decide (q1 = "")) as [->|H1], (decide (q2 = "")) as [->|H2];
    [done | | | ].
  - destruct q2; [done | intros [=]].
  - destruct q1; [done | intros [=]].
  - intros [=]. done.
Qed.

(** What the queue holds: its list, or nothing when the key is not there. *)
Lemma flash_each_queue (msgs : list value) (queue : string) (old : list value) (st : state) :
  default (VList []) (data (session st) !! _get_flash_queue_key queue) = VList old →
  (data (session st) !! _get_flash_queue_key queue = None ∨
   ∃ l, data (session st) !! _get_flash_queue_key queue = Some (VList l)) →
  fst (flash_each msgs queue st) = Ret tt ∧
  default (VList [])
    (data (session (snd (flash_each msgs queue st))) !! _get_flash_queue_key queue) =
    VList (old ++ msgs).
Proof.
  revert old st. induction msgs as [|msg rest IH]; intros old st Hold Hqueue.
  - cbn. by rewrite (right_id_L [] (++)).
  - pose proof (flash_appends msg queue st Hqueue) as Hstep. cbn zeta in Hstep.
    match type of Hstep with _ = (_, ?s) => set (st1 := s) in * end.
    assert (flash_each (msg :: rest) queue st = flash_each rest queue st1) as ->.
    { cbn [flash_each]. unfold bind. rewrite Hstep. reflexivity. }
    assert (data (session st1) !! _get_flash_queue_key queue = Some (VList (old ++ [msg])))
      as Hnext.
    { subst st1. cbn [session data with_data with_changed]. rewrite lookup_insert_eq.
      destruct Hqueue as [Hq | [l Hq]]; rewrite Hq in Hold |- *; cbn in Hold.
      - by injection Hold as <-.
      - by injection Hold as <-. }
    destruct (IH (old ++ [msg]) st1) as [Hret Hdata].
    { by rewrite Hnext. }
    { right. eauto. }
    rewrite <- (assoc_L (++)) in Hdata. split; [exact Hret | exact Hdata].
Qed.

(** X10. Messages flashed one after the other on a queue come back in that
    order, after the ones the queue already held: peek_flash shows them and
    leaves them, pop_flash returns them and removes the queue, and after
    that peek_flash shows an empty list. *)
Theorem flashed_messages_come_back_in_order (msgs : list value) (queue : string) (st : state) :
  let key := _get_flash_queue_key queue in
  let old := match data (session st) !! key with Some (VList l) => l | _ => [] end in
  (data (session st) !! key = None ∨ ∃ l, data (session st) !! key = Some (VList l)) →
  let st1 := snd (flash_each msgs queue st) in
  let st2 := snd (pop_flash queue st1) in
  fst (flash_each msgs queue st) = Ret tt ∧
  peek_flash queue st1 = (Ret (VList (old ++ msgs)), st1) ∧
  fst (pop_flash queue st1) = Ret (VList (old ++ msgs)) ∧
  data (session st2) !! key = None ∧
  fst (peek_flash queue st2) = Ret (VList []).
Proof.
  cbn zeta. intros Hqueue.
  match goal with |- context [VList (?o ++ msgs)] => set (old := o) end.
  destruct (flash_each_queue msgs queue old st) as [Hret Hdata]; [|exact Hqueue|].
  { subst old. destruct Hqueue as [-> | [l ->]]; reflexivity. }
  destruct (peek_and_pop_flash queue (snd (flash_each msgs queue st))) as [Hpeek Hpop].
  cbn zeta in Hpeek, Hpop. rewrite Hdata in Hpeek, Hpop.
  rewrite Hpeek, Hpop. cbn [fst snd].
  split; [exact Hret|]. repeat split.
  - cbn [session data with_data with_changed]. apply lookup_delete_eq.
  - unfold peek_flash, dict_get. run. rewrite lookup_delete_eq. reflexivity.
Qed.

(** X11. On a queue that exists, flash without duplicates appends the
    message and marks the session when the message is not in the queue, and
    does nothing at all when it is. *)
Theorem flash_without_duplicates (msg : value) (queue : string) (l : list value) (st : state) :
  data (session st) !! _get_flash_queue_key queue = Some (VList l) →
  flash msg queue false st =
    if existsb (py_eq msg) l
    then (Ret tt, st)
    else (Ret tt,
          marked (with_session_data
                    (<[_get_flash_queue_key queue := VList (l ++ [msg])]> (data (session st)))
                    st)).
Proof.
  intros Hqueue.
  unfold flash, dict_getitem, py_in, setdefault, dict_setdefault, append_in_place,
    marked, with_session_data.
  cbn [negb]. run. rewrite Hqueue. run.
  destruct (existsb (py_eq msg) l); [reflexivity|].
  run. rewrite Hqueue. reflexivity.
Qed.

(** X12. Queues are separate: whatever flash does on one queue, and
    whether it returns or raises, every other queue reads as before. *)
Theorem flash_queues_are_separate (msg : value) (q1 q2 : string) (dup : bool) (st : state) :
  q1 ≠ q2 →
  peek_flash q2 (snd (flash msg q1 dup st)) =
    (fst (peek_flash q2 st), snd (flash msg q1 dup st)).
Proof.
  intros Hne.
  assert (_get_flash_queue_key q1 ≠ _get_flash_queue_key q2) as Hkeys
    by (intros Heq; apply Hne, flash_queue_key_inj, Heq).
  unfold peek_flash, dict_get. run. do 3 f_equal.
  unfold flash, dict_getitem, py_in, setdefault, dict_setdefault, append_in_place.
  destruct dup; cbn [negb]; run;
    repeat (case_match; simplify_eq; run; try reflexivity);
    unfold with_data, with_changed; cbn [data session];
    rewrite ?lookup_insert_ne by done; reflexivity.
Qed.

End Flash_queues.

Section Requests_and_responses.

Context `{!Signer, !Serializer, !Builtins, !Entropy, !Hmac}.

(** Every session that [_process_request] returns is clean. *)
Lemma loaded_session_is_clean (request : Request) (store : gmap string (bytes * Z))
    (now : Z) (s : Session) :
  fst (_process_request request store now) = Ret s →
  _changed s = false ∧ invalidated s = false ∧ created s = now ∧ new s = true.
Proof.
  unfold _process_request, load_session. cbn [fst].
  repeat case_match; intros [= <-]; repeat split.
Qed.

(** X13. A request that leaves its session alone costs nothing: whatever
    [_process_request] has loaded is neither dirty nor invalidated, and
    response processing on it writes nothing to the store, adds nothing to
    the response and draws no token. *)
Theorem untouched_session_is_not_saved (request request' : Request)
    (store : gmap string (bytes * Z)) (now : Z) (s : Session)
    (directives : list cookie_directive) (drawn : nat) :
  fst (_process_request request store now) = Ret s →
  _changed s = false ∧
  invalidated s = false ∧
  _process_response request' (mkState s store directives drawn now) =
    (Ret tt, mkState s store directives drawn now).
Proof.
  intros Hload.
  destruct (loaded_session_is_clean request store now s Hload) as (Hclean & Hlive & _).
  split; [exact Hclean | split; [exact Hlive |]].
  rewrite process_response_live by exact Hlive.
  cbn [session]. rewrite Hclean. reflexivity.
Qed.

(** X14. Response processing raises only what msgpack raises on the data
    of a dirty session, and otherwise returns. Either way it changes no
    store key other than those of the identifier it read and of the one it
    may have drawn, leaves the data and the flags of the session as they
    were, and keeps what the response already held. *)
Theorem other_sessions_are_untouched (request : Request) (st : state) (k : string) :
  k ≠ _redis_key (sid_read st) →
  k ≠ _redis_key (random_token (entropy_read st)) →
  let st' := snd (_process_response request st) in
  fst (_process_response request st) =
    (if _changed (session st)
     then match packb (data (session st)) with
          | Ret _ => Ret tt
          | Raise e => Raise e
          end
     else Ret tt) ∧
  redis st' !! k = redis st !! k ∧
  data (session st') = data (session st) ∧
  _changed (session st') = _changed (session st) ∧
  invalidated (session st') = invalidated (session st) ∧
  response st `prefix_of` response st'.
Proof.
  intros Hold Hfresh. cbn zeta.
  destruct (invalidated (session st)) eqn:Hinv.
  - rewrite (process_response_invalidated request st Hinv). cbn zeta.
    destruct (_changed (session st)) eqn:Hdirty;
      [destruct (packb (data (session st)))|];
      cbn [fst snd redis response session with_sid data _changed invalidated];
      rewrite ?lookup_insert_ne, ?lookup_delete_ne by done;
      repeat split; try done; by eexists.
  - rewrite (process_response_live request st Hinv).
    destruct (_changed (session st)) eqn:Hdirty;
      [destruct (packb (data (session st)))|];
      cbn [fst snd redis response session with_sid data _changed invalidated];
      rewrite ?lookup_insert_ne by done;
      repeat split; try done; by eexists.
Qed.

(** X15. A session that has an identifier and is not invalidated keeps it:
    response processing draws no token, and when the session is dirty and
    msgpack encodes its data, what it stores and what it signs into the
    cookie is that identifier. A session that is not dirty, and one whose
    data msgpack raises on, leave the store and the response as they
    were. *)
Theorem live_session_keeps_identifier (request : Request) (st : state) (x : string) :
  invalidated (session st) = false →
  _sid (session st) = Some x →
  let st' := snd (_process_response request st) in
  _sid (session st') = Some x ∧
  entropy st' = entropy st ∧
  if _changed (session st)
  then match packb (data (session st)) with
       | Ret blob =>
         redis st' = <[_redis_key x := (blob, 43200)]> (redis st) ∧
         response st' = response st ++ [session_cookie request x (clock st)]
       | Raise e =>
         fst (_process_response request st) = Raise e ∧
         redis st' = redis st ∧
         response st' = response st
       end
  else redis st' = redis st ∧ response st' = response st.
Proof.
  intros Hinv Hsid. cbn zeta.
  rewrite (process_response_live request st Hinv).
  unfold sid_read, entropy_read. rewrite Hsid. cbn [default].
  destruct (_changed (session st)); [destruct (packb (data (session st)))|];
    cbn [fst snd redis response session with_sid _sid entropy];
    repeat split; exact Hsid.
Qed.

(** X16. Logging out works: after [invalidate] on a session with the
    identifier [x], response processing removes the entry of [x] from the
    store and tells the response to delete the cookie, and a later request
    that still presents a validly signed cookie for [x] gets an empty new
    session. *)
Theorem invalidated_cookie_loads_nothing (request request' : Request) (st : state)
    (x token : string) (payload : bytes) (later : Z) :
  _sid (session st) = Some x →
  cookies request' !! "session_id" = Some token →
  unsign token 43200 later = Unsigned payload →
  decode_utf8 payload = Some x →
  let st' := snd (_process_response request (snd (invalidate st))) in
  redis st' !! _redis_key x = None ∧
  response st' = response st ++ [DeleteCookie "session_id"] ∧
  _sid (session st') = None ∧
  fst (_process_request request' (redis st') later) = Ret (__init__ None None true later).
Proof.
  intros Hsid Hcookie Hsig Hutf. cbn zeta.
  assert (invalidate st =
    (Ret tt,
     mkState (mkSession ∅ (_sid (session st)) false true (clock st) true)
       (redis st) (response st) (entropy st) (clock st))) as Hinvalidate.
  { unfold invalidate, clear, dict_clear. run. reflexivity. }
  rewrite Hinvalidate. cbn [snd].
  rewrite process_response_invalidated by reflexivity.
  cbn zeta. unfold sid_read, entropy_read.
  cbn [fst snd session redis response _sid _changed with_sid entropy].
  rewrite Hsid. cbn [default].
  assert (delete (_redis_key x) (redis st) !! _redis_key x = None) as Hgone
    by apply lookup_delete_eq.
  repeat split; [exact Hgone|].
  unfold _process_request, load_session, cookie_name, max_age.
  cbn [fst add_response_callback cookies].
  change (12 * 60 * 60) with 43200.
  rewrite Hcookie, Hsig, Hutf. unfold id. rewrite Hgone. reflexivity.
Qed.

(** The cookie that a response ends with is the one the browser keeps. *)
Lemma cookie_jar_last (directives : list cookie_directive) (name val : string)
    (age : Z) (httponly secure : bool) :
  cookie_jar (directives ++ [SetCookie name val age httponly secure]) !! name = Some val.
Proof.
  unfold cookie_jar. rewrite foldl_app. cbn [foldl receive]. apply lookup_insert_eq.
Qed.

(** X17. What is saved loads back: for any dirty session, whatever was
    done to it, whether it had an identifier or not and whether it was
    invalidated or not, the request that presents the cookies of the
    response loads a session with the same data under the identifier that
    was saved, provided the serializer encodes the data and gives it back,
    the signer accepts its token and the identifier is text. *)
Theorem saved_session_loads_back (request : Request) (st : state) (x : string)
    (later : Z) (scheme' : string) (blob : bytes) :
  _changed (session st) = true →
  let st' := snd (_process_response request st) in
  _sid (session st') = Some x →
  packb (data (session st)) = Ret blob →
  unpackb blob = Ret (VDict (data (session st))) →
  unsign (sign (encode_utf8 x) (clock st)) 43200 later = Unsigned (encode_utf8 x) →
  decode_utf8 (encode_utf8 x) = Some x →
  ∃ s,
    fst (_process_request (mkRequest (cookie_jar (response st')) scheme' [])
           (redis st') later) = Ret s ∧
    data s = data (session st) ∧
    _sid s = Some x.
Proof.
  intros Hdirty. cbn zeta. intros Hx Hpack Hunpack Hsign Htext.
  destruct (process_response_dirty request st blob Hdirty Hpack)
    as (_ & Hsid & _ & Hstore & Hcookie).
  cbn zeta in Hsid, Hstore, Hcookie.
  rewrite Hsid in Hx. injection Hx as Hx. rewrite Hx in Hstore, Hcookie.
  apply last_Some in Hcookie as [before Hresp].
  unfold _process_request, load_session, cookie_name, max_age.
  cbn [fst add_response_callback cookies].
  change (12 * 60 * 60) with 43200.
  rewrite Hresp. unfold session_cookie. rewrite cookie_jar_last.
  rewrite Hsign, Htext, Hstore.
  cbn [fmap option_fmap option_map fst]. rewrite Hunpack.
  eexists. repeat split.
Qed.

(** X18. A cookie whose signature verifies but whose payload is not UTF-8
    is not degraded to a new session: [_process_request] lets
    UnicodeDecodeError escape, since the handler around the decoding only
    names BadSignature. *)
Theorem undecodable_identifier_raises (request : Request)
    (store : gmap string (bytes * Z)) (now : Z) (token : string) (payload : bytes) :
  cookies request !! "session_id" = Some token →
  unsign token 43200 now = Unsigned payload →
  decode_utf8 payload = None →
  fst (_process_request request store now) = Raise UnicodeDecodeError.
Proof.
  intros Hcookie Hsig Hutf.
  unfold _process_request, load_session, cookie_name, max_age.
  cbn [fst add_response_callback cookies].
  change (12 * 60 * 60) with 43200.
  rewrite Hcookie, Hsig, Hutf. reflexivity.
Qed.

End Requests_and_responses.

Section Access_guard.

Context `{!Http, !Entropy, !Hmac}.

(** What the tween leaves in the request's attributes. *)
Lemma session_tween_run {A} (handler : G A) (g : guarded) :
  session_tween handler g =
    let inside := mkGuarded invalid_session (Some (request_session g)) (world g) in
    match request__session (snd (handler inside)) with
    | Some r =>
      (fst (handler inside),
       mkGuarded r (request__session (snd (handler inside))) (world (snd (handler inside))))
    | None => (Thrown (Raised AttributeError), snd (handler inside))
    end.
Proof.
  unfold session_tween, g_bind, try_finally, get_request_session, set_request__session,
    set_request_session, get_request__session.
  cbn [request_session request__session world]. cbn zeta.
  destruct (handler _) as [r g']. cbn [fst snd].
  destruct (request__session g') eqn:Hattr; cbv beta iota zeta;
    rewrite ?Hattr; reflexivity.
Qed.

(** X19. Under the tween, a view that uses [request.session] without
    [uses_session] is stopped at its first use, whatever it meant to do
    next: a call of a method and a read of [sid] get the RuntimeError of
    the guard, and [del] on [sid], which the guard does not intercept, gets
    AttributeError. The session and the store are untouched, and
    [request.session] is the real session again once the tween returns. *)
Theorem unguarded_view_cannot_use_session {A B} (op : session_op A) (next : A → G B)
    (g : guarded) :
  session_tween (g_bind (on_session op) next) g =
    (Thrown
       (if intercepted op
        then RuntimeError "Cannot use request.session in a view without @uses_session."
        else Raised AttributeError),
     mkGuarded (request_session g) (Some (request_session g)) (world g)).
Proof.
  rewrite session_tween_run. cbn zeta.
  unfold g_bind, on_session, run_invalid. cbn [request_session].
  destruct (intercepted op); reflexivity.
Qed.

(** X20. The tween puts [request.session] back whether the handler returns
    or raises, and passes the handler's outcome on: for a handler that
    leaves [request._session] alone, [request.session] is afterwards what it
    was before. *)
Theorem tween_restores_session {A} (handler : G A) (g : guarded) :
  let inside := mkGuarded invalid_session (Some (request_session g)) (world g) in
  request__session (snd (handler inside)) = request__session inside →
  fst (session_tween handler g) = fst (handler inside) ∧
  request_session (snd (session_tween handler g)) = request_session g ∧
  world (snd (session_tween handler g)) = world (snd (handler inside)).
Proof.
  cbn zeta. intros Hkept. rewrite session_tween_run. cbn zeta.
  rewrite Hkept. cbn [request__session fst snd request_session world]. repeat split.
Qed.

(** X21. Under the tween, a view decorated with [uses_session] reaches the
    real session: a session method it calls runs on the session in the
    state, with the outcome and the effect it has there, given a decorator
    [add_vary] that runs the view it wraps as it is. *)
Theorem guarded_view_uses_session {A} (op : session_op A) (g : guarded) :
  (∀ (v : G A) (g' : guarded), add_vary A "Cookie" v g' = v g') →
  request_session g = real_session →
  session_tween (uses_session (on_session op)) g =
    (match fst (run_op op (world g)) with
     | Ret a => Returned a
     | Raise e => Thrown (Raised e)
     end,
     mkGuarded real_session (Some real_session) (snd (run_op op (world g)))).
Proof.
  intros Hvary Hreal. rewrite session_tween_run. cbn zeta.
  unfold uses_session. rewrite !Hvary.
  unfold g_bind, get_request__session, set_request_session, on_session, on_real.
  cbn [request_session request__session world]. rewrite Hreal.
  destruct (run_op op (world g)) as [[a|e] st]; reflexivity.
Qed.

(** X22. Without the tween there is no [request._session]: a view
    decorated with [uses_session] raises AttributeError before it runs. *)
Theorem uses_session_needs_the_tween {A} (view : G A) (g : guarded) :
  (∀ (v : G A) (g' : guarded), add_vary A "Cookie" v g' = v g') →
  request__session g = None →
  uses_session view g = (Thrown (Raised AttributeError), g).
Proof.
  intros Hvary Hnone. unfold uses_session. rewrite Hvary.
  unfold g_bind, get_request__session. rewrite Hnone. reflexivity.
Qed.

End Access_guard.

(** * The theorems on the reference collaborators *)

Section Runs.

#[local] Existing Instance Reference.signer.
#[local] Existing Instance Reference.serializer.
#[local] Existing Instance Reference.builtins.
#[local] Existing Instance Reference.tokens.
#[local] Existing Instance Reference.digest.

Lemma round_trip_run :
  [("counter", VInt 1)] ≡ₚ map_to_list Reference.counter ∧
  packb Reference.counter = Ret (Reference.blob_of Reference.counter) ∧
  unpackb (Reference.blob_of Reference.counter) = Ret (VDict Reference.counter) ∧
  unsign (sign (encode_utf8 "sid-0") 10) 43200 99 = Unsigned (encode_utf8 "sid-0") ∧
  ∃ s,
    fst (_process_request
           (mkRequest
              (cookie_jar (response (snd (_process_response Reference.https Reference.counted))))
              "http" [])
           (redis (snd (_process_response Reference.https Reference.counted))) 99) = Ret s ∧
    data s = Reference.counter.
Proof.
  assert ([("counter", VInt 1)] ≡ₚ map_to_list Reference.counter) as Hperm
    by (vm_compute; reflexivity).
  assert (packb Reference.counter = Ret (Reference.blob_of Reference.counter)) as Hpack
    by (vm_compute; reflexivity).
  assert (unpackb (Reference.blob_of Reference.counter) = Ret (VDict Reference.counter))
    as Hunpack by (vm_compute; reflexivity).
  assert (unsign (sign (encode_utf8 "sid-0") 10) 43200 99 = Unsigned (encode_utf8 "sid-0"))
    as Hsign by (vm_compute; reflexivity).
  split; [exact Hperm | split; [exact Hpack | split; [exact Hunpack | split; [exact Hsign |]]]].
  exact (round_trip Reference.counter [("counter", VInt 1)] Reference.https ∅ 0 10 99 "http"
           (Reference.blob_of Reference.counter) Hperm Hpack Hunpack Hsign eq_refl).
Defined.

Lemma loaded_session_is_flagged_new_run :
  ∃ s,
    fst (_process_request
           (mkRequest {[ "session_id" := sign (encode_utf8 "abc") 10 ]} "https" [])
           {[ "warehouse/session/data/abc" := (Reference.blob_of Reference.counter, 43200) ]}
           99) = Ret s ∧
    data s = Reference.counter ∧ _sid s = Some "abc" ∧ new s = true.
Proof.
  apply (loaded_session_is_flagged_new _ _ 99 (sign (encode_utf8 "abc") 10)
           (encode_utf8 "abc") "abc" (Reference.blob_of Reference.counter) 43200
           Reference.counter);
    vm_compute; reflexivity.
Defined.

(** A cookie signed at 10 and presented at 50000 is older than 43200. *)
Lemma caught_failures_give_new_session_run :
  unsign (sign (encode_utf8 "abc") 10) 43200 50000 = SignatureExpired ∧
  fst (_process_request
         (mkRequest {[ "session_id" := sign (encode_utf8 "abc") 10 ]} "https" [])
         {[ "warehouse/session/data/abc" := (Reference.blob_of Reference.counter, 43200) ]}
         50000) =
    Ret (__init__ None None true 50000).
Proof.
  assert (unsign (sign (encode_utf8 "abc") 10) 43200 50000 = SignatureExpired) as Hold
    by (vm_compute; reflexivity).
  split; [exact Hold|].
  apply (caught_failures_give_new_session
           (mkRequest {[ "session_id" := sign (encode_utf8 "abc") 10 ]} "https" [])
           {[ "warehouse/session/data/abc" := (Reference.blob_of Reference.counter, 43200) ]}
           50000).
  right. exists (sign (encode_utf8 "abc") 10).
  split; [reflexivity | right; left; exact Hold].
Defined.

(** The blob 81 a1 6b a1 ff is a map from "k" to a string of the one byte
    ff, which is not UTF-8. *)
Lemma corrupt_payload_escapes_run :
  unpackb [Byte.x81; Byte.xa1; Byte.x6b; Byte.xa1; Byte.xff] = Raise UnicodeDecodeError ∧
  fst (_process_request
         (mkRequest {[ "session_id" := sign (encode_utf8 "abc") 10 ]} "https" [])
         {[ "warehouse/session/data/abc" :=
              ([Byte.x81; Byte.xa1; Byte.x6b; Byte.xa1; Byte.xff], 43200) ]}
         99) = Raise UnicodeDecodeError.
Proof.
  assert (unpackb [Byte.x81; Byte.xa1; Byte.x6b; Byte.xa1; Byte.xff] =
          Raise UnicodeDecodeError) as Hblob by (vm_compute; reflexivity).
  split; [exact Hblob|].
  apply (corrupt_payload_escapes _ _ 99 (sign (encode_utf8 "abc") 10)
           (encode_utf8 "abc") "abc"
           [Byte.x81; Byte.xa1; Byte.x6b; Byte.xa1; Byte.xff] 43200 UnicodeDecodeError);
    [reflexivity | vm_compute; reflexivity | vm_compute; reflexivity | reflexivity
    | exact Hblob | discriminate | discriminate].
Defined.

(** The blob 01 is the number 1. *)
Lemma unpacked_object_escapes_run :
  unpackb [Byte.x01] = Ret (VInt 1) ∧
  fst (_process_request
         (mkRequest {[ "session_id" := sign (encode_utf8 "abc") 10 ]} "https" [])
         {[ "warehouse/session/data/abc" := ([Byte.x01], 43200) ]}
         99) = Raise TypeError.
Proof.
  split; [vm_compute; reflexivity|].
  apply (unpacked_object_escapes _ _ 99 (sign (encode_utf8 "abc") 10)
           (encode_utf8 "abc") "abc" [Byte.x01] 43200 (VInt 1) TypeError);
    vm_compute; reflexivity.
Defined.

Lemma invalidated_session_is_deleted_run :
  invalidated (session Cases.logged_out_then_set) = true ∧
  _changed (session Cases.logged_out_then_set) = true ∧
  packb (data (session Cases.logged_out_then_set)) =
    Ret (Reference.blob_of {[ "n" := VInt 2 ]}) ∧
  fst (_process_response Reference.https Cases.logged_out_then_set) = Ret tt ∧
  redis (snd (_process_response Reference.https Cases.logged_out_then_set)) =
    <[ "warehouse/session/data/sid-0" := (Reference.blob_of {[ "n" := VInt 2 ]}, 43200) ]>
      (delete "warehouse/session/data/abc" (redis Cases.logged_out_then_set)) ∧
  _sid (session (snd (_process_response Reference.https Cases.logged_out_then_set))) =
    Some "sid-0" ∧
  response (snd (_process_response Reference.https Cases.logged_out_then_set)) =
    [SetCookie "session_id" "v1.sid-0.20" 43200 true true].
Proof.
  assert (packb (data (session Cases.logged_out_then_set)) =
          Ret (Reference.blob_of {[ "n" := VInt 2 ]})) as Hpack
    by (vm_compute; reflexivity).
  split; [reflexivity | split; [reflexivity | split; [exact Hpack |]]].
  pose proof (invalidated_session_is_deleted Reference.https Cases.logged_out_then_set
                eq_refl) as Hrun.
  cbn zeta in Hrun.
  change (_changed (session Cases.logged_out_then_set)) with true in Hrun.
  cbv iota in Hrun. rewrite Hpack in Hrun.
  destruct Hrun as (Hret & Hstore & Hsid & Hresp).
  split; [exact Hret | split; [exact Hstore | split; [exact Hsid | exact Hresp]]].
Defined.

Lemma dirty_session_is_saved_run :
  fst (should_save Reference.counted) = Ret true ∧
  packb (data (session Reference.counted)) = Ret (Reference.blob_of Reference.counter) ∧
  redis (snd (_process_response Reference.https Reference.counted)) !! "warehouse/session/data/sid-0" =
    Some (Reference.blob_of Reference.counter, 43200) ∧
  last (response (snd (_process_response Reference.https Reference.counted))) =
    Some (SetCookie "session_id" "v1.sid-0.10" 43200 true true).
Proof.
  assert (packb (data (session Reference.counted)) =
          Ret (Reference.blob_of Reference.counter)) as Hpack
    by (vm_compute; reflexivity).
  split; [reflexivity | split; [exact Hpack |]].
  pose proof (dirty_session_is_saved Reference.https Reference.counted
                (Reference.blob_of Reference.counter) eq_refl Hpack) as Hrun.
  cbn zeta in Hrun. destruct Hrun as (_ & _ & _ & Hstore & Hcookie).
  split; [exact Hstore | exact Hcookie].
Defined.

Lemma reading_csrf_token_marks_dirty_run :
  data (session (Reference.blank 10)) !! "_csrf_token" = None ∧
  fst (get_csrf_token (Reference.blank 10)) = Ret (VStr "sid-0") ∧
  fst (should_save (snd (get_csrf_token (Reference.blank 10)))) = Ret true ∧
  packb (<["_csrf_token" := VStr "sid-0"]> (data (session (Reference.blank 10)))) =
    Ret (Reference.blob_of {[ "_csrf_token" := VStr "sid-0" ]}) ∧
  fst (_process_response Reference.https (snd (get_csrf_token (Reference.blank 10)))) = Ret tt.
Proof.
  assert (packb (<["_csrf_token" := VStr (random_token (entropy (Reference.blank 10)))]>
                   (data (session (Reference.blank 10)))) =
          Ret (Reference.blob_of {[ "_csrf_token" := VStr "sid-0" ]})) as Hpack
    by (vm_compute; reflexivity).
  split; [reflexivity|].
  pose proof (reading_csrf_token_marks_dirty Reference.https "scope" (Reference.blank 10) eq_refl)
    as Hrun.
  cbn zeta in Hrun. destruct Hrun as (Htoken & _ & _ & Hsave & _ & _ & _ & Hlast).
  rewrite Hpack in Hlast. destruct Hlast as [Hret _].
  split; [exact Htoken | split; [exact Hsave | split; [exact Hpack | exact Hret]]].
Defined.

Lemma scoped_csrf_token_is_nested_hmac_run :
  data (session Reference.with_token) !! "_csrf_token" = Some (VStr "seed") ∧
  _sid (session Reference.with_token) = Some "abc" ∧
  get_scoped_csrf_token "form" Reference.with_token =
    (Ret "sha512(sha512(seed,form),abc)", Reference.with_token).
Proof.
  split; [reflexivity | split; [reflexivity |]].
  exact (scoped_csrf_token_is_nested_hmac "form" "seed" "abc" Reference.with_token eq_refl eq_refl).
Defined.

Lemma flash_without_queue_raises_run :
  data (session (Reference.blank 10)) !! _get_flash_queue_key "" = None ∧
  flash (VStr "x") "" false (Reference.blank 10) = (Raise KeyError, Reference.blank 10).
Proof.
  split; [reflexivity|].
  apply (flash_without_queue_raises (VStr "x") "" (Reference.blank 10)). reflexivity.
Defined.

#[local] Existing Instance Plain.http.

Lemma failed_removal_still_marks_run :
  data (session (Reference.blank 10)) !! "missing" = None ∧
  __delitem__ "missing" (Reference.blank 10) = (Raise KeyError, marked (Reference.blank 10)) ∧
  pop "missing" None (Reference.blank 10) = (Raise KeyError, marked (Reference.blank 10)) ∧
  pop "missing" (Some (VInt 0)) (Reference.blank 10) = (Ret (VInt 0), marked (Reference.blank 10)).
Proof.
  split; [reflexivity|].
  apply (failed_removal_still_marks (Reference.blank 10) "missing" (VInt 0)). reflexivity.
Defined.

Lemma scoped_csrf_token_is_stable_run :
  get_scoped_csrf_token "form" (Reference.blank 10) =
    (Ret "sha512(sha512(sid-0,form),sid-1)",
     snd (get_scoped_csrf_token "form" (Reference.blank 10))) ∧
  get_scoped_csrf_token "form" (snd (get_scoped_csrf_token "form" (Reference.blank 10))) =
    (Ret "sha512(sha512(sid-0,form),sid-1)",
     snd (get_scoped_csrf_token "form" (Reference.blank 10))).
Proof.
  assert (get_scoped_csrf_token "form" (Reference.blank 10) =
    (Ret "sha512(sha512(sid-0,form),sid-1)",
     snd (get_scoped_csrf_token "form" (Reference.blank 10)))) as Hfirst
    by (vm_compute; reflexivity).
  split; [exact Hfirst|].
  exact (scoped_csrf_token_is_stable "form" _ _ _ Hfirst).
Defined.

Lemma scoped_csrf_token_wants_a_string_run :
  get_scoped_csrf_token "form"
    (mkState (__init__ (Some {[ "_csrf_token" := VInt 5 ]}) None true 10) ∅ [] 0 10) =
    (Raise AttributeError,
     mkState (__init__ (Some {[ "_csrf_token" := VInt 5 ]}) None true 10) ∅ [] 0 10).
Proof.
  apply (scoped_csrf_token_wants_a_string "form" (VInt 5)).
  - reflexivity.
  - discriminate.
  - intros t. discriminate.
Defined.

Lemma flashed_messages_come_back_in_order_run :
  data (session (Reference.blank 10)) !! _get_flash_queue_key "" = None ∧
  fst (pop_flash "" (snd (flash_each [VStr "a"; VStr "b"] "" (Reference.blank 10)))) =
    Ret (VList [VStr "a"; VStr "b"]).
Proof.
  split; [reflexivity|].
  pose proof (flashed_messages_come_back_in_order [VStr "a"; VStr "b"] ""
                (Reference.blank 10) (or_introl eq_refl)) as Hrun.
  cbn zeta in Hrun. destruct Hrun as (_ & _ & Hpop & _). exact Hpop.
Defined.

Lemma flash_without_duplicates_run :
  let st := snd (flash (VStr "x") "" true (Reference.blank 10)) in
  data (session st) !! _get_flash_queue_key "" = Some (VList [VStr "x"]) ∧
  flash (VStr "x") "" false st = (Ret tt, st) ∧
  fst (peek_flash "" (snd (flash (VStr "y") "" false st))) = Ret (VList [VStr "x"; VStr "y"]).
Proof.
  cbn zeta.
  assert (data (session (snd (flash (VStr "x") "" true (Reference.blank 10))))
            !! _get_flash_queue_key "" = Some (VList [VStr "x"])) as Hqueue
    by (vm_compute; reflexivity).
  split; [exact Hqueue|]. split.
  - rewrite (flash_without_duplicates (VStr "x") "" [VStr "x"] _ Hqueue). reflexivity.
  - rewrite (flash_without_duplicates (VStr "y") "" [VStr "x"] _ Hqueue).
    vm_compute. reflexivity.
Defined.

Lemma flash_queues_are_separate_run :
  "" ≠ "errors" ∧
  fst (peek_flash "errors" (snd (flash (VStr "x") "" true (Reference.blank 10)))) =
    Ret (VList []).
Proof.
  assert ("" ≠ "errors") as Hne by discriminate.
  split; [exact Hne|].
  rewrite (flash_queues_are_separate (VStr "x") "" "errors" true (Reference.blank 10) Hne).
  reflexivity.
Defined.

Lemma untouched_session_is_not_saved_run :
  fst (_process_request Reference.https ∅ 5) = Ret (__init__ None None true 5) ∧
  _process_response Reference.https (mkState (__init__ None None true 5) ∅ [] 0 5) =
    (Ret tt, mkState (__init__ None None true 5) ∅ [] 0 5).
Proof.
  split; [reflexivity|].
  apply (untouched_session_is_not_saved Reference.https Reference.https ∅ 5
           (__init__ None None true 5) [] 0).
  reflexivity.
Defined.

Lemma other_sessions_are_untouched_run :
  "warehouse/session/data/other" ≠ _redis_key (sid_read Reference.counted) ∧
  redis (snd (_process_response Reference.https Reference.counted))
    !! "warehouse/session/data/other" =
  redis Reference.counted !! "warehouse/session/data/other".
Proof.
  assert ("warehouse/session/data/other" ≠ _redis_key (sid_read Reference.counted)) as Hold
    by (vm_compute; discriminate).
  assert ("warehouse/session/data/other" ≠
          _redis_key (random_token (entropy_read Reference.counted))) as Hfresh
    by (vm_compute; discriminate).
  split; [exact Hold|].
  pose proof (other_sessions_are_untouched Reference.https Reference.counted
                "warehouse/session/data/other" Hold Hfresh) as Hrun.
  cbn zeta in Hrun. destruct Hrun as (_ & Hstore & _). exact Hstore.
Defined.

Lemma live_session_keeps_identifier_run :
  let st := snd (__setitem__ "n" (VInt 2)
                   (mkState (__init__ (Some Reference.counter) (Some "abc") true 10) ∅ [] 0 10)) in
  _sid (session st) = Some "abc" ∧
  _sid (session (snd (_process_response Reference.https st))) = Some "abc" ∧
  entropy (snd (_process_response Reference.https st)) = 0%nat.
Proof.
  cbn zeta. split; [reflexivity|].
  pose proof (live_session_keeps_identifier Reference.https
                (snd (__setitem__ "n" (VInt 2)
                   (mkState (__init__ (Some Reference.counter) (Some "abc") true 10) ∅ [] 0 10)))
                "abc" eq_refl eq_refl) as Hrun.
  cbn zeta in Hrun. destruct Hrun as (Hsid & Hentropy & _).
  split; [exact Hsid | exact Hentropy].
Defined.

Lemma invalidated_cookie_loads_nothing_run :
  let st := mkState (__init__ (Some Reference.counter) (Some "abc") true 10)
              {[ "warehouse/session/data/abc" := (Reference.blob_of Reference.counter, 43200) ]} [] 0 20 in
  let request' := mkRequest {[ "session_id" := sign (encode_utf8 "abc") 10 ]} "https" [] in
  unsign (sign (encode_utf8 "abc") 10) 43200 99 = Unsigned (encode_utf8 "abc") ∧
  fst (_process_request request'
         (redis (snd (_process_response Reference.https (snd (invalidate st))))) 99) =
    Ret (__init__ None None true 99).
Proof.
  cbn zeta.
  assert (unsign (sign (encode_utf8 "abc") 10) 43200 99 = Unsigned (encode_utf8 "abc"))
    as Hsig by (vm_compute; reflexivity).
  split; [exact Hsig|].
  apply (invalidated_cookie_loads_nothing Reference.https
           (mkRequest {[ "session_id" := sign (encode_utf8 "abc") 10 ]} "https" [])
           (mkState (__init__ (Some Reference.counter) (Some "abc") true 10)
              {[ "warehouse/session/data/abc" := (Reference.blob_of Reference.counter, 43200) ]} [] 0 20)
           "abc" (sign (encode_utf8 "abc") 10) (encode_utf8 "abc") 99);
    [reflexivity | reflexivity | exact Hsig | vm_compute; reflexivity].
Defined.

Lemma saved_session_loads_back_run :
  _changed (session Cases.logged_out_then_set) = true ∧
  invalidated (session Cases.logged_out_then_set) = true ∧
  ∃ s,
    fst (_process_request
           (mkRequest
              (cookie_jar
                 (response (snd (_process_response Reference.https
                                   Cases.logged_out_then_set))))
              "https" [])
           (redis (snd (_process_response Reference.https Cases.logged_out_then_set)))
           99) = Ret s ∧
    data s = {[ "n" := VInt 2 ]} ∧
    _sid s = Some "sid-0".
Proof.
  split; [reflexivity | split; [reflexivity |]].
  apply (saved_session_loads_back Reference.https Cases.logged_out_then_set
           "sid-0" 99 "https" (Reference.blob_of {[ "n" := VInt 2 ]}));
    vm_compute; reflexivity.
Defined.

Lemma undecodable_identifier_raises_run :
  decode_utf8 [Byte.xff] = None ∧
  fst (_process_request
         (mkRequest {[ "session_id" := sign [Byte.xff] 10 ]} "https" []) ∅ 20) =
    Raise UnicodeDecodeError.
Proof.
  split; [reflexivity|].
  apply (undecodable_identifier_raises _ ∅ 20 (sign [Byte.xff] 10) [Byte.xff]);
    vm_compute; reflexivity.
Defined.

Lemma tween_restores_session_run :
  request_session
    (snd (session_tween (on_session call_clear)
            (mkGuarded real_session None (Reference.blank 10)))) = real_session ∧
  world
    (snd (session_tween (on_session call_clear)
            (mkGuarded real_session None (Reference.blank 10)))) = Reference.blank 10.
Proof.
  pose proof (tween_restores_session (on_session call_clear)
                (mkGuarded real_session None (Reference.blank 10)) eq_refl) as Hrun.
  destruct Hrun as (_ & Hattr & Hworld). split; [exact Hattr | exact Hworld].
Defined.

Lemma guarded_view_uses_session_run :
  session_tween (uses_session (on_session (call_setitem "counter" (VInt 1))))
    (mkGuarded real_session None (Reference.blank 10)) =
    (Returned tt, mkGuarded real_session (Some real_session) Reference.counted).
Proof.
  apply (guarded_view_uses_session (call_setitem "counter" (VInt 1))
           (mkGuarded real_session None (Reference.blank 10))).
  - intros v g'. reflexivity.
  - reflexivity.
Defined.

Lemma uses_session_needs_the_tween_run :
  uses_session (on_session call_clear) (mkGuarded real_session None (Reference.blank 10)) =
    (Thrown (Raised AttributeError), mkGuarded real_session None (Reference.blank 10)).
Proof.
  apply (uses_session_needs_the_tween (on_session call_clear)
           (mkGuarded real_session None (Reference.blank 10))).
  - intros v g'. reflexivity.
  - reflexivity.
Defined.

End Runs.
